(** * Node helpers of the elasticsearch operator

    A shallow embedding of [pkg/k8shandler/nodehelpers.go]: the functions
    that turn an [elasticsearchNode] into the container, the volumes and
    the affinity of the pod that runs it, and the properties of that
    resolution.

    Kubernetes' API structs are records, one module per struct so that
    fields keep their Go names ([EnvVar.Name], [Volume.VolumeSource]).
    A Go pointer that may be nil is an [option]; a [map] is a [gmap].
    [resource.Quantity] belongs to the apimachinery library and stays
    abstract behind the class [QuantityAPI]; calls to logrus and to the
    cluster's object store are recorded in an explicit [World]. *)

From stdpp Require Import base option list strings pretty gmap.
From Stdlib Require Import Ascii ZArith NArith.

Open Scope Z_scope.
Open Scope string_scope.

(** ** Go's [error] and [fmt] *)

(** An [error] is nil or carries the text its [Error()] method returns. *)
Definition error : Type := option string.

(** [fmt.Sprintf] at the three format strings the file uses; [%s] on a
    string argument copies it. *)
Definition Sprintf_s_cluster (a : string) : string := a +:+ "-cluster".
Definition Sprintf_cluster_eq_s (a : string) : string := "cluster=" +:+ a.
Definition Sprintf_s_certs (a : string) : string := a +:+ "-certs".
Definition Sprintf_s_dash_s (a b : string) : string := a +:+ "-" +:+ b.

(** 1 for a pointer that is set, 0 for nil. *)
Definition set_count {A : Type} (p : option A) : nat :=
  if p is Some _ then 1%nat else 0%nat.

(** ** [k8s.io/apimachinery/pkg/api/resource] *)

Inductive Format : Type := DecimalExponent | BinarySI | DecimalSI.

(** The part of [resource.Quantity] the node helpers call.
    [zeroQuantity f] is the struct literal [resource.Quantity{Format: f}];
    [ParseQuantity] returns a quantity and an error, as in Go. *)
Class QuantityAPI : Type := {
  Quantity : Type;
  zeroQuantity : Format → Quantity;
  IsZero : Quantity → bool;
  QString : Quantity → string;
  ParseQuantity : string → Quantity * error;
}.

(** ** [k8s.io/apimachinery/pkg/util/intstr] and [meta/v1] *)

Inductive IntOrString : Type :=
  | FromInt (i : Z)
  | FromString (s : string).

Inductive LabelSelectorOperator : Type :=
  | LabelSelectorOpIn
  | LabelSelectorOpNotIn
  | LabelSelectorOpExists
  | LabelSelectorOpDoesNotExist.

Module LabelSelectorRequirement.
Record t : Type := mk {
  Key : string;
  Operator : LabelSelectorOperator;
  Values : list string;
}.
End LabelSelectorRequirement.

Module LabelSelector.
Record t : Type := mk {
  MatchLabels : gmap string string;
  MatchExpressions : list LabelSelectorRequirement.t;
}.
End LabelSelector.

(** ** [k8s.io/api/core/v1] *)

Inductive Protocol : Type := ProtocolTCP | ProtocolUDP.

Module TCPSocketAction.
Record t : Type := mk { Port : IntOrString; Host : string }.
End TCPSocketAction.

(** [v1.Handler]; the exec and HTTP actions are never set here. *)
Module Handler.
Record t : Type := mk { TCPSocket : option TCPSocketAction.t }.
End Handler.

Module Probe.
Record t : Type := mk {
  Handler : Handler.t;
  InitialDelaySeconds : Z;
  TimeoutSeconds : Z;
  PeriodSeconds : Z;
  SuccessThreshold : Z;
  FailureThreshold : Z;
}.
End Probe.

Module PodAffinityTerm.
Record t : Type := mk {
  LabelSelector : option LabelSelector.t;
  Namespaces : list string;
  TopologyKey : string;
}.
End PodAffinityTerm.

Module WeightedPodAffinityTerm.
Record t : Type := mk {
  Weight : Z;
  PodAffinityTerm : PodAffinityTerm.t;
}.
End WeightedPodAffinityTerm.

Module PodAntiAffinity.
Record t : Type := mk {
  RequiredDuringSchedulingIgnoredDuringExecution : list PodAffinityTerm.t;
  PreferredDuringSchedulingIgnoredDuringExecution :
    list WeightedPodAffinityTerm.t;
}.
End PodAntiAffinity.

(** [v1.Affinity]; node affinity and pod affinity are never set here. *)
Module Affinity.
Record t : Type := mk { PodAntiAffinity : option PodAntiAffinity.t }.
End Affinity.

Module ObjectFieldSelector.
Record t : Type := mk { APIVersion : string; FieldPath : string }.
End ObjectFieldSelector.

(** [v1.EnvVarSource]; only the field reference is ever set here. *)
Module EnvVarSource.
Record t : Type := mk { FieldRef : option ObjectFieldSelector.t }.
End EnvVarSource.

Module EnvVar.
Record t : Type := mk {
  Name : string;
  Value : string;
  ValueFrom : option EnvVarSource.t;
}.
End EnvVar.

Module ContainerPort.
Record t : Type := mk {
  Name : string;
  ContainerPort : Z;
  Protocol : Protocol;
}.
End ContainerPort.

Module VolumeMount.
Record t : Type := mk { Name : string; MountPath : string }.
End VolumeMount.

Module HostPathVolumeSource.
Record t : Type := mk { Path : string; Type_ : option string }.
End HostPathVolumeSource.

Module EmptyDirVolumeSource.
Record t (Q : Type) : Type := mk { Medium : string; SizeLimit : option Q }.
Arguments mk {Q}.
Arguments Medium {Q}.
Arguments SizeLimit {Q}.
End EmptyDirVolumeSource.

Module PersistentVolumeClaimVolumeSource.
Record t : Type := mk { ClaimName : string; ReadOnly : bool }.
End PersistentVolumeClaimVolumeSource.

Module SecretVolumeSource.
Record t : Type := mk { SecretName : string }.
End SecretVolumeSource.

Module LocalObjectReference.
Record t : Type := mk { Name : string }.
End LocalObjectReference.

Module ConfigMapVolumeSource.
Record t : Type := mk { LocalObjectReference : LocalObjectReference.t }.
End ConfigMapVolumeSource.

(** [v1.VolumeSource] with the five members the node helpers read or
    write; every other member of the Go struct stays nil throughout. *)
Module VolumeSource.
Record t (Q : Type) : Type := mk {
  HostPath : option HostPathVolumeSource.t;
  EmptyDir : option (EmptyDirVolumeSource.t Q);
  Secret : option SecretVolumeSource.t;
  PersistentVolumeClaim : option PersistentVolumeClaimVolumeSource.t;
  ConfigMap : option ConfigMapVolumeSource.t;
}.
Arguments mk {Q}.
Arguments HostPath {Q}.
Arguments EmptyDir {Q}.
Arguments Secret {Q}.
Arguments PersistentVolumeClaim {Q}.
Arguments ConfigMap {Q}.

(** The struct literal [v1.VolumeSource{}]. *)
Definition zero {Q : Type} : t Q := mk None None None None None.

(** How many members are not nil. *)
Definition populated {Q : Type} (v : t Q) : nat :=
  (set_count (HostPath v) + set_count (EmptyDir v) + set_count (Secret v)
   + set_count (PersistentVolumeClaim v) + set_count (ConfigMap v))%nat.
End VolumeSource.

Module Volume.
Record t (Q : Type) : Type := mk {
  Name : string;
  VolumeSource : VolumeSource.t Q;
}.
Arguments mk {Q}.
Arguments Name {Q}.
Arguments VolumeSource {Q}.
End Volume.

(** [v1.ResourceList] is [map[ResourceName]resource.Quantity]. *)
Abbreviation ResourceList Q := (gmap string Q).

Module ResourceRequirements.
Record t (Q : Type) : Type := mk {
  Limits : ResourceList Q;
  Requests : ResourceList Q;
}.
Arguments mk {Q}.
Arguments Limits {Q}.
Arguments Requests {Q}.
End ResourceRequirements.

Module Container.
Record t (Q : Type) : Type := mk {
  Name : string;
  Image : string;
  ImagePullPolicy : string;
  Env : list EnvVar.t;
  Ports : list ContainerPort.t;
  ReadinessProbe : option Probe.t;
  LivenessProbe : option Probe.t;
  VolumeMounts : list VolumeMount.t;
  Resources : ResourceRequirements.t Q;
}.
Arguments mk {Q}.
Arguments Name {Q}.
Arguments Image {Q}.
Arguments ImagePullPolicy {Q}.
Arguments Env {Q}.
Arguments Ports {Q}.
Arguments ReadinessProbe {Q}.
Arguments LivenessProbe {Q}.
Arguments VolumeMounts {Q}.
Arguments Resources {Q}.
End Container.

(** ** The operator's own types

    [elasticsearchNode] and the [v1alpha1] structs it embeds are declared
    in other files of the repository. The records below hold the fields
    [nodehelpers.go] reads, under the names it reads them by. *)

(** Modelled from the spec: the struct behind [ESNodeSpec.Config], of which
    only the "optional image override" is read. *)
Module ElasticsearchConfig.
Record t : Type := mk { Image : string }.
End ElasticsearchConfig.

Module PersistentVolumeClaim.
Record t (S : Type) : Type := mk { Name : string; Spec : S }.
Arguments mk {S}.
Arguments Name {S}.
Arguments Spec {S}.
End PersistentVolumeClaim.

(** Modelled from the spec: the StorageSpec of a node, whose declaration is
    in another file. Four pointers, one per variant (host path, empty dir,
    claim template, existing claim), any of which may be nil. *)
Module ElasticsearchStorageSource.
Record t (Q S : Type) : Type := mk {
  HostPath : option HostPathVolumeSource.t;
  EmptyDir : option (EmptyDirVolumeSource.t Q);
  VolumeClaimTemplate : option (PersistentVolumeClaim.t S);
  PersistentVolumeClaim : option PersistentVolumeClaimVolumeSource.t;
}.
Arguments mk {Q S}.
Arguments HostPath {Q S}.
Arguments EmptyDir {Q S}.
Arguments VolumeClaimTemplate {Q S}.
Arguments PersistentVolumeClaim {Q S}.
End ElasticsearchStorageSource.

(** Modelled from the spec: the NodeSpec, whose declaration is in another
    file: resources, image override, node selector and storage. *)
Module ElasticsearchNode.
Record t (Q S : Type) : Type := mk {
  Config : ElasticsearchConfig.t;
  NodeSelector : gmap string string;
  Storage : ElasticsearchStorageSource.t Q S;
  Resources : ResourceRequirements.t Q;
}.
Arguments mk {Q S}.
Arguments Config {Q S}.
Arguments NodeSelector {Q S}.
Arguments Storage {Q S}.
Arguments Resources {Q S}.
End ElasticsearchNode.

(** Modelled from the spec: the struct that holds the security flag. *)
Module ElasticsearchSecure.
Record t : Type := mk { Enabled : bool }.
End ElasticsearchSecure.

(** Modelled from the spec: the NodeDescriptor, the receiver of every
    method below, whose declaration is in another file: cluster name,
    namespace, deployment name, role, node spec and security flag. *)
Module elasticsearchNode.
Record t (Q S : Type) : Type := mk {
  ClusterName : string;
  Namespace : string;
  DeployName : string;
  NodeType : string;
  ESNodeSpec : ElasticsearchNode.t Q S;
  ElasticsearchSecure : ElasticsearchSecure.t;
}.
Arguments mk {Q S}.
Arguments ClusterName {Q S}.
Arguments Namespace {Q S}.
Arguments DeployName {Q S}.
Arguments NodeType {Q S}.
Arguments ESNodeSpec {Q S}.
Arguments ElasticsearchSecure {Q S}.

(** The same node with the security flag set to [b]. *)
Definition with_secure {Q S : Type} (b : bool) (cfg : t Q S) : t Q S :=
  mk (ClusterName cfg) (Namespace cfg) (DeployName cfg) (NodeType cfg)
     (ESNodeSpec cfg) (ElasticsearchSecure.mk b).
End elasticsearchNode.

(** ** The world outside: logrus and the cluster's object store *)

Inductive Level : Type := InfoLevel | ErrorLevel.

(** What a run of the node helpers does to the outside, in order. *)
Inductive Event (S : Type) : Type :=
  | Logged (lvl : Level) (msg : string)
  | Upserted (spec : S) (claimName namespace : string).
Arguments Logged {S}.
Arguments Upserted {S}.

(** Modelled from the spec: [createOrUpdatePersistentVolumeClaim] is a
    function of this package whose body is in another file. It takes the
    claim's desired spec, its name and its namespace to the object store
    and returns an error or nil; which of the two, and what the store
    holds afterwards, is left to the instance. *)
Class ClusterAPI : Type := {
  PersistentVolumeClaimSpec : Type;
  Store : Type;
  createOrUpdate :
    PersistentVolumeClaimSpec → string → string → Store → error * Store;
}.

Module World.
Record t `{ClusterAPI} : Type := mk {
  store : Store;
  trace : list (Event PersistentVolumeClaimSpec);
}.
End World.

(** A computation that returns an [A] and changes the world. *)
Definition M `{ClusterAPI} (A : Type) : Type := World.t → A * World.t.

#[export] Instance M_ret `{ClusterAPI} : MRet M := λ A a w, (a, w).
#[export] Instance M_bind `{ClusterAPI} : MBind M :=
  λ A B f m w, let '(a, w') := m w in f a w'.

Definition emit `{ClusterAPI} (e : Event PersistentVolumeClaimSpec) : M unit :=
  λ w, (tt, World.mk _ (World.store w) (World.trace w ++ [e])%list).

(** [logrus.Infof] and [logrus.Errorf], after formatting. *)
Definition Infof `{ClusterAPI} (msg : string) : M unit :=
  emit (Logged InfoLevel msg).
Definition Errorf `{ClusterAPI} (msg : string) : M unit :=
  emit (Logged ErrorLevel msg).

(** The call of [createOrUpdatePersistentVolumeClaim]: noted in the trace,
    then run against the store. *)
Definition createOrUpdatePersistentVolumeClaim `{ClusterAPI}
    (spec : PersistentVolumeClaimSpec) (claimName namespace : string)
    : M error :=
  λ w,
    let '(err, st) := createOrUpdate spec claimName namespace (World.store w) in
    (err, World.mk _ st (World.trace w ++ [Upserted spec claimName namespace])%list).

(** The events a computation adds when started in [w]. *)
Definition events_of `{ClusterAPI} {A : Type} (m : M A) (w : World.t)
    : list (Event PersistentVolumeClaimSpec) :=
  drop (length (World.trace w)) (World.trace (m w).2).

Definition is_upsert {S : Type} (e : Event S) : bool :=
  match e with Upserted _ _ _ => true | Logged _ _ => false end.

(** ** Constants of [nodehelpers.go] *)

Definition elasticsearchCertsPath : string := "/etc/elasticsearch/secret".
Definition clusterHealthURL : string := "/_nodes/_local".
Definition elasticsearchConfigPath : string :=
  "/usr/share/java/elasticsearch/config".
Definition elasticsearchDefaultImage : string :=
  "docker.io/t0ffel/elasticsearch5".
Definition defaultMasterCPULimit : string := "100m".
Definition defaultMasterCPURequest : string := "100m".
Definition defaultCPULimit : string := "4000m".
Definition defaultCPURequest : string := "100m".
Definition defaultMemoryLimit : string := "4Gi".
Definition defaultMemoryRequest : string := "1Gi".
Definition heapDumpLocation : string :=
  "/elasticsearch/persistent/heapdump.hprof".
Definition promUser : string := "prometheus".

(** ** [getReadinessProbe] *)

Definition getReadinessProbe : Probe.t :=
  {| Probe.TimeoutSeconds := 30;
     Probe.InitialDelaySeconds := 10;
     Probe.FailureThreshold := 15;
     Probe.PeriodSeconds := 0;
     Probe.SuccessThreshold := 0;
     Probe.Handler :=
       {| Handler.TCPSocket :=
            Some {| TCPSocketAction.Port := FromInt 9300;
                    TCPSocketAction.Host := "" |} |} |}.

(** ** The methods of [elasticsearchNode] *)

Abbreviation storageOf cfg :=
  (ElasticsearchNode.Storage (elasticsearchNode.ESNodeSpec cfg)).

Abbreviation secureOf cfg :=
  (ElasticsearchSecure.Enabled (elasticsearchNode.ElasticsearchSecure cfg)).

Section NodeHelpers.

Context `{api : QuantityAPI} `{cluster : ClusterAPI}.

(** Modelled from the spec: [isNodeMaster] and [isNodeData] are methods of
    [elasticsearchNode] whose bodies are in another file. The spec has
    them as "boolean role flags (is-master / has-data) derived from the
    node's role": each is some function of [NodeType] to a string. *)
Variable roleIsMaster : string → string.
Variable roleIsData : string → string.

Abbreviation node := (elasticsearchNode.t Quantity PersistentVolumeClaimSpec).

Definition isNodeMaster (cfg : node) : string :=
  roleIsMaster (elasticsearchNode.NodeType cfg).

Definition isNodeData (cfg : node) : string :=
  roleIsData (elasticsearchNode.NodeType cfg).

(** [ResourceList.Cpu] and [ResourceList.Memory] of core/v1: the entry of
    the map, or a zero quantity of the resource's usual format. *)
Definition Cpu (self : ResourceList Quantity) : Quantity :=
  default (zeroQuantity DecimalSI) (self !! "cpu").

Definition Memory (self : ResourceList Quantity) : Quantity :=
  default (zeroQuantity BinarySI) (self !! "memory").

Definition getAffinity (cfg : node) : Affinity.t :=
  {| Affinity.PodAntiAffinity := Some
       {| PodAntiAffinity.RequiredDuringSchedulingIgnoredDuringExecution := [];
          PodAntiAffinity.PreferredDuringSchedulingIgnoredDuringExecution := [
            {| WeightedPodAffinityTerm.Weight := 100;
               WeightedPodAffinityTerm.PodAffinityTerm :=
                 {| PodAffinityTerm.LabelSelector := Some
                      {| LabelSelector.MatchLabels := ∅;
                         LabelSelector.MatchExpressions := [
                           {| LabelSelectorRequirement.Key := "role";
                              LabelSelectorRequirement.Operator :=
                                LabelSelectorOpIn;
                              LabelSelectorRequirement.Values :=
                                [elasticsearchNode.NodeType cfg] |} ] |};
                    PodAffinityTerm.Namespaces := [];
                    PodAffinityTerm.TopologyKey := "kubernetes.io/hostname"
                 |} |} ] |} |}.

Definition getInstanceRAM (cfg : node) : string :=
  let memory :=
    Memory (ResourceRequirements.Limits
              (ElasticsearchNode.Resources (elasticsearchNode.ESNodeSpec cfg))) in
  if negb (IsZero memory) then QString memory else defaultMemoryLimit.

(** An entry with a literal value, and one whose value is a field of the
    pod read at run time. *)
Definition env (name value : string) : EnvVar.t :=
  {| EnvVar.Name := name; EnvVar.Value := value; EnvVar.ValueFrom := None |}.

Definition env_field (name path : string) : EnvVar.t :=
  {| EnvVar.Name := name; EnvVar.Value := "";
     EnvVar.ValueFrom := Some
       {| EnvVarSource.FieldRef := Some
            {| ObjectFieldSelector.APIVersion := "";
               ObjectFieldSelector.FieldPath := path |} |} |}.

Definition getEnvVars (cfg : node) : list EnvVar.t := [
  env "DC_NAME" (elasticsearchNode.DeployName cfg);
  env_field "NAMESPACE" "metadata.namespace";
  env "KUBERNETES_TRUST_CERT" "true";
  env "SERVICE_DNS" (Sprintf_s_cluster (elasticsearchNode.ClusterName cfg));
  env "CLUSTER_NAME" (elasticsearchNode.ClusterName cfg);
  env "INSTANCE_RAM" (getInstanceRAM cfg);
  env "HEAP_DUMP_LOCATION" heapDumpLocation;
  env "NODE_QUORUM" "1";
  env "RECOVER_EXPECTED_NODES" "1";
  env "RECOVER_AFTER_TIME" "5m";
  env "READINESS_PROBE_TIMEOUT" "30";
  env "POD_LABEL" (Sprintf_cluster_eq_s (elasticsearchNode.ClusterName cfg));
  env "IS_MASTER" (isNodeMaster cfg);
  env "HAS_DATA" (isNodeData cfg);
  env "PROMETHEUS_USER" promUser;
  env "PRIMARY_SHARDS" "1";
  env "REPLICA_SHARDS" "0"
].

Definition getResourceRequirements (cfg : node)
    : M (ResourceRequirements.t Quantity) :=
  let resources := ElasticsearchNode.Resources (elasticsearchNode.ESNodeSpec cfg) in
  let limitCPU := Cpu (ResourceRequirements.Limits resources) in
  let limitCPU :=
    if IsZero limitCPU then (ParseQuantity defaultCPULimit).1 else limitCPU in
  let limitMem := (ParseQuantity (getInstanceRAM cfg)).1 in
  let requestCPU := Cpu (ResourceRequirements.Requests resources) in
  let requestCPU :=
    if IsZero requestCPU then (ParseQuantity defaultCPURequest).1
    else requestCPU in
  let requestMem := Memory (ResourceRequirements.Requests resources) in
  let requestMem :=
    if IsZero requestMem then (ParseQuantity defaultMemoryRequest).1
    else requestMem in
  _ ← Infof ("Using  memory limit: " +:+ QString limitMem +:+ ", for node "
             +:+ elasticsearchNode.DeployName cfg);
  mret {| ResourceRequirements.Limits :=
            <["cpu" := limitCPU]> (<["memory" := limitMem]> ∅);
          ResourceRequirements.Requests :=
            <["cpu" := requestCPU]> (<["memory" := requestMem]> ∅) |}.

Definition getVolumeMounts (cfg : node) : list VolumeMount.t :=
  let mounts := [
    {| VolumeMount.Name := "elasticsearch-storage";
       VolumeMount.MountPath := "/elasticsearch/persistent" |};
    {| VolumeMount.Name := "elasticsearch-config";
       VolumeMount.MountPath := elasticsearchConfigPath |} ] in
  if ElasticsearchSecure.Enabled (elasticsearchNode.ElasticsearchSecure cfg)
  then (mounts ++ [ {| VolumeMount.Name := "certificates";
                       VolumeMount.MountPath := elasticsearchCertsPath |} ])%list
  else mounts.

Definition getESContainer (cfg : node) : M (Container.t Quantity) :=
  let image :=
    if String.eqb (ElasticsearchConfig.Image
                     (ElasticsearchNode.Config (elasticsearchNode.ESNodeSpec cfg))) ""
    then elasticsearchDefaultImage
    else ElasticsearchConfig.Image
           (ElasticsearchNode.Config (elasticsearchNode.ESNodeSpec cfg)) in
  let probe := getReadinessProbe in
  let envVars := getEnvVars cfg in
  let mounts := getVolumeMounts cfg in
  resources ← getResourceRequirements cfg;
  mret {| Container.Name := "elasticsearch";
          Container.Image := image;
          Container.ImagePullPolicy := "Always";
          Container.Env := envVars;
          Container.Ports := [
            {| ContainerPort.Name := "cluster";
               ContainerPort.ContainerPort := 9300;
               ContainerPort.Protocol := ProtocolTCP |};
            {| ContainerPort.Name := "restapi";
               ContainerPort.ContainerPort := 9200;
               ContainerPort.Protocol := ProtocolTCP |} ];
          Container.ReadinessProbe := Some probe;
          Container.LivenessProbe := Some probe;
          Container.VolumeMounts := mounts;
          Container.Resources := resources |}.

Definition generatePersistentStorage (cfg : node) : M (VolumeSource.t Quantity) :=
  let volSource := VolumeSource.zero in
  let specVol := ElasticsearchNode.Storage (elasticsearchNode.ESNodeSpec cfg) in
  match ElasticsearchStorageSource.HostPath specVol,
        ElasticsearchStorageSource.EmptyDir specVol,
        ElasticsearchStorageSource.VolumeClaimTemplate specVol,
        ElasticsearchStorageSource.PersistentVolumeClaim specVol with
  | Some hostPath, _, _, _ =>
      mret (VolumeSource.mk (Some hostPath) (VolumeSource.EmptyDir volSource)
              (VolumeSource.Secret volSource)
              (VolumeSource.PersistentVolumeClaim volSource)
              (VolumeSource.ConfigMap volSource))
  | None, Some emptyDir, _, _ =>
      mret (VolumeSource.mk (VolumeSource.HostPath volSource) (Some emptyDir)
              (VolumeSource.Secret volSource)
              (VolumeSource.PersistentVolumeClaim volSource)
              (VolumeSource.ConfigMap volSource))
  | None, None, Some template, _ =>
      let claimName :=
        Sprintf_s_dash_s (PersistentVolumeClaim.Name template)
                         (elasticsearchNode.DeployName cfg) in
      let volClaim :=
        {| PersistentVolumeClaimVolumeSource.ClaimName := claimName;
           PersistentVolumeClaimVolumeSource.ReadOnly := false |} in
      let volSource :=
        VolumeSource.mk (VolumeSource.HostPath volSource)
          (VolumeSource.EmptyDir volSource) (VolumeSource.Secret volSource)
          (Some volClaim) (VolumeSource.ConfigMap volSource) in
      err ← createOrUpdatePersistentVolumeClaim
              (PersistentVolumeClaim.Spec template) claimName
              (elasticsearchNode.Namespace cfg);
      _ ← match err with
          | Some msg =>
              Errorf ("Unable to create PersistentVolumeClaim: " +:+ msg)
          | None => mret tt
          end;
      mret volSource
  | None, None, None, Some claim =>
      mret (VolumeSource.mk (VolumeSource.HostPath volSource)
              (VolumeSource.EmptyDir volSource) (VolumeSource.Secret volSource)
              (Some claim) (VolumeSource.ConfigMap volSource))
  | None, None, None, None =>
      _ ← Infof "Unknown volume source";
      mret volSource
  end.

Definition getVolumes (cfg : node) : M (list (Volume.t Quantity)) :=
  storage ← generatePersistentStorage cfg;
  let vols := [
    {| Volume.Name := "elasticsearch-storage";
       Volume.VolumeSource := storage |};
    {| Volume.Name := "elasticsearch-config";
       Volume.VolumeSource :=
         VolumeSource.mk None None None None
           (Some {| ConfigMapVolumeSource.LocalObjectReference :=
                      {| LocalObjectReference.Name :=
                           elasticsearchNode.ClusterName cfg |} |}) |} ] in
  let vols :=
    if ElasticsearchSecure.Enabled (elasticsearchNode.ElasticsearchSecure cfg)
    then
      let secretName := Sprintf_s_certs (elasticsearchNode.ClusterName cfg) in
      (vols ++ [
        {| Volume.Name := "certificates";
           Volume.VolumeSource :=
             VolumeSource.mk None None
               (Some {| SecretVolumeSource.SecretName := secretName |})
               None None |} ])%list
    else vols in
  mret vols.

Definition getSelector (cfg : node) : gmap string string * bool :=
  let selector := ElasticsearchNode.NodeSelector (elasticsearchNode.ESNodeSpec cfg) in
  if Nat.eqb (size selector) 0 then (∅, false) else (selector, true).

(** ** Names for what the theorems speak of *)

(** The memory limit a node asks for, as [getInstanceRAM] reads it. *)
Definition memoryLimitOf (cfg : node) : Quantity :=
  Memory (ResourceRequirements.Limits
            (ElasticsearchNode.Resources (elasticsearchNode.ESNodeSpec cfg))).

(** The other three quantities a node asks for, as
    [getResourceRequirements] reads them. *)
Definition cpuLimitOf (cfg : node) : Quantity :=
  Cpu (ResourceRequirements.Limits
         (ElasticsearchNode.Resources (elasticsearchNode.ESNodeSpec cfg))).

Definition cpuRequestOf (cfg : node) : Quantity :=
  Cpu (ResourceRequirements.Requests
         (ElasticsearchNode.Resources (elasticsearchNode.ESNodeSpec cfg))).

Definition memoryRequestOf (cfg : node) : Quantity :=
  Memory (ResourceRequirements.Requests
            (ElasticsearchNode.Resources (elasticsearchNode.ESNodeSpec cfg))).

(** Volume sources with one member set. *)
Definition onlyHostPath (h : HostPathVolumeSource.t) : VolumeSource.t Quantity :=
  VolumeSource.mk (Some h) None None None None.

Definition onlyEmptyDir (e : EmptyDirVolumeSource.t Quantity)
    : VolumeSource.t Quantity :=
  VolumeSource.mk None (Some e) None None None.

Definition onlyClaim (c : PersistentVolumeClaimVolumeSource.t)
    : VolumeSource.t Quantity :=
  VolumeSource.mk None None None (Some c) None.

(** The name [generatePersistentStorage] gives the claim of a template. *)
Definition claimNameOf (template : PersistentVolumeClaim.t PersistentVolumeClaimSpec)
    (cfg : node) : string :=
  PersistentVolumeClaim.Name template +:+ "-" +:+ elasticsearchNode.DeployName cfg.

(** Two nodes that agree on everything but the security flag. *)
Definition sameButSecure (cfg1 cfg2 : node) : Prop :=
  elasticsearchNode.ClusterName cfg2 = elasticsearchNode.ClusterName cfg1
  ∧ elasticsearchNode.Namespace cfg2 = elasticsearchNode.Namespace cfg1
  ∧ elasticsearchNode.DeployName cfg2 = elasticsearchNode.DeployName cfg1
  ∧ elasticsearchNode.NodeType cfg2 = elasticsearchNode.NodeType cfg1
  ∧ elasticsearchNode.ESNodeSpec cfg2 = elasticsearchNode.ESNodeSpec cfg1.

(** The three volumes [getVolumes] builds. *)
Definition storageVolume (source : VolumeSource.t Quantity) : Volume.t Quantity :=
  {| Volume.Name := "elasticsearch-storage"; Volume.VolumeSource := source |}.

Definition configVolume (cfg : node) : Volume.t Quantity :=
  {| Volume.Name := "elasticsearch-config";
     Volume.VolumeSource :=
       VolumeSource.mk None None None None
         (Some (ConfigMapVolumeSource.mk
                  (LocalObjectReference.mk (elasticsearchNode.ClusterName cfg)))) |}.

(** The credentials volume: named "certificates", from the secret
    "<cluster name>-certs". *)
Definition certificatesVolume (cfg : node) : Volume.t Quantity :=
  {| Volume.Name := "certificates";
     Volume.VolumeSource :=
       VolumeSource.mk None None
         (Some (SecretVolumeSource.mk
                  (elasticsearchNode.ClusterName cfg +:+ "-certs")))
         None None |}.

(** The credentials mount, under the same name. *)
Definition certificatesMount : VolumeMount.t :=
  {| VolumeMount.Name := "certificates";
     VolumeMount.MountPath := "/etc/elasticsearch/secret" |}.

End NodeHelpers.

(** ** Reading the outputs *)

(** The first entry of an environment list under a name. *)
Definition lookupEnv (name : string) (l : list EnvVar.t) : option EnvVar.t :=
  List.find (λ e, String.eqb (EnvVar.Name e) name) l.

Definition volumesNamed {Q : Type} (name : string) (l : list (Volume.t Q))
    : list (Volume.t Q) :=
  List.filter (λ v, String.eqb (Volume.Name v) name) l.

Definition mountsNamed (name : string) (l : list VolumeMount.t)
    : list VolumeMount.t :=
  List.filter (λ m, String.eqb (VolumeMount.Name m) name) l.

(** Whether some variant of a storage choice is set, and whether the claim
    template is the variant the switch of [generatePersistentStorage]
    reaches. *)
Definition storageSet {Q S : Type} (s : ElasticsearchStorageSource.t Q S) : bool :=
  match ElasticsearchStorageSource.HostPath s,
        ElasticsearchStorageSource.EmptyDir s,
        ElasticsearchStorageSource.VolumeClaimTemplate s,
        ElasticsearchStorageSource.PersistentVolumeClaim s with
  | None, None, None, None => false
  | _, _, _, _ => true
  end.

Definition templateSelected {Q S : Type} (s : ElasticsearchStorageSource.t Q S)
    : bool :=
  match ElasticsearchStorageSource.HostPath s,
        ElasticsearchStorageSource.EmptyDir s,
        ElasticsearchStorageSource.VolumeClaimTemplate s with
  | None, None, Some _ => true
  | _, _, _ => false
  end.

(** The same node asking for the resources [r]. *)
Definition withResources {Q S : Type} (r : ResourceRequirements.t Q)
    (cfg : elasticsearchNode.t Q S) : elasticsearchNode.t Q S :=
  elasticsearchNode.mk (elasticsearchNode.ClusterName cfg)
    (elasticsearchNode.Namespace cfg) (elasticsearchNode.DeployName cfg)
    (elasticsearchNode.NodeType cfg)
    (ElasticsearchNode.mk
       (ElasticsearchNode.Config (elasticsearchNode.ESNodeSpec cfg))
       (ElasticsearchNode.NodeSelector (elasticsearchNode.ESNodeSpec cfg))
       (ElasticsearchNode.Storage (elasticsearchNode.ESNodeSpec cfg)) r)
    (elasticsearchNode.ElasticsearchSecure cfg).

(** An environment entry whose value is read from elsewhere. *)
Definition hasValueFrom (e : EnvVar.t) : bool :=
  if EnvVar.ValueFrom e is Some _ then true else false.

(** ** A reference instance of the outside

    A model of the quantity library and two object stores, one that keeps
    every claim and one that refuses every call. They give the theorems
    below concrete inputs to run on. *)

(** [k8s.io/apimachinery/pkg/api/resource], as far as the node helpers use
    it: [ParseQuantity], [String] and [IsZero]. The library is no part of
    this repository; the model follows its parser and its canonical form
    step by step. A quantity is held by its amount, which for everything
    [ParseQuantity] returns is a whole number of billionths: the parser
    rounds finer amounts up. [ParseQuantity] keeps the text it read when
    its quick test takes that text for canonical, and [String] returns the
    kept text, otherwise the canonical form: no fraction, the largest
    exponent, a binary suffix only for a binary quantity of 1024 or more. *)
Module resource.

#[local] Open Scope Z_scope.

(** A quantity: its amount in billionths of a unit, its format (none for
    the struct literal [Quantity{}]) and the text [ParseQuantity] kept. *)
Record t : Type := mk { nanos : Z; format : option Format; s : string }.

Definition ErrFormatWrong : string :=
  "quantities must match the regular expression '^([+-]?[0-9.]+)([eEinumkKMGTP]*[-+]?[0-9]*)$'".
Definition ErrNumeric : string := "unable to parse numeric part of quantity".
Definition ErrSuffix : string := "unable to parse quantity's suffix".

Definition maxInt64 : Z := 9223372036854775807.

Definition isDigit (c : ascii) : bool :=
  let n := N_of_ascii c in ((48 <=? n) && (n <=? 57))%N.

Definition isSuffixLetter (c : ascii) : bool :=
  bool_decide (c ∈ ["e"; "E"; "i"; "n"; "u"; "m"; "k"; "K"; "M"; "G"; "T"; "P"]%char).

(** The longest prefix whose characters satisfy [p], and the rest. *)
Fixpoint span (p : ascii → bool) (str : string) : string * string :=
  match str with
  | String c rest =>
      if p c then let '(a, b) := span p rest in (String c a, b) else ("", str)
  | EmptyString => ("", "")
  end.

(** The number a string of digits writes. *)
Fixpoint digitsFrom (acc : Z) (str : string) : Z :=
  match str with
  | String c rest => digitsFrom (10 * acc + (Z.of_N (N_of_ascii c) - 48)) rest
  | EmptyString => acc
  end.
Definition digitsValue (str : string) : Z := digitsFrom 0 str.

Definition allDigits (str : string) : bool :=
  String.eqb (span isDigit str).2 "".

Fixpoint hasDigit (str : string) : bool :=
  match str with
  | String c rest => isDigit c || hasDigit rest
  | EmptyString => false
  end.

Definition hasSuffix000 (str : string) : bool :=
  (3 <=? String.length str)%nat
  && String.eqb (String.substring (String.length str - 3) 3 str) "000".

Record parts : Type := mkParts {
  positive : bool; value : string; num : string; denom : string; suffix : string;
}.

(** [parseQuantityString]: sign, leading zeros, numerator, denominator,
    suffix letters, and an exponent's sign and digits. *)
Definition parseQuantityString (str : string) : parts + string :=
  let '(positive, afterSign) :=
    match str with
    | String "-" rest => (false, rest)
    | String "+" rest => (true, rest)
    | _ => (true, str)
    end in
  let afterZeros := (span (Ascii.eqb "0") afterSign).2 in
  if String.eqb afterZeros "" then inl (mkParts positive "0" "0" "" "")
  else
    let '(num, afterNum) := span isDigit afterZeros in
    if String.eqb afterNum "" then inl (mkParts positive str num "" "")
    else
      let num' := if String.eqb num "" then "0" else num in
      let '(denom, afterDenom) :=
        match afterNum with
        | String "." rest => span isDigit rest
        | _ => ("", afterNum)
        end in
      let value :=
        String.substring 0 (String.length str - String.length afterDenom) str in
      if String.eqb afterDenom "" then inl (mkParts positive str num' denom "")
      else
        let afterLetters := (span isSuffixLetter afterDenom).2 in
        let afterExpSign :=
          match afterLetters with
          | String "-" rest => rest
          | String "+" rest => rest
          | _ => afterLetters
          end in
        if allDigits afterExpSign
        then inl (mkParts positive value num' denom afterDenom)
        else inr ErrFormatWrong.

(** [strconv.ParseInt(str, 10, 64)]. *)
Definition ParseInt (str : string) : option Z :=
  let '(negative, digits) :=
    match str with
    | String "-" rest => (true, rest)
    | String "+" rest => (false, rest)
    | _ => (false, str)
    end in
  if String.eqb digits "" || negb (allDigits digits) then None
  else
    let n := if negative then - digitsValue digits else digitsValue digits in
    if (- maxInt64 - 1 <=? n) && (n <=? maxInt64) then Some n else None.

(** Conversion of an [int64] to [int32]. *)
Definition int32 (n : Z) : Z := (n + 2147483648) mod 4294967296 - 2147483648.

(** [quantitySuffixer.interpret]: base, exponent and format of a suffix. *)
Definition interpret (suffix : string) : option (Z * Z * Format) :=
  if String.eqb suffix "n" then Some (10, -9, DecimalSI)
  else if String.eqb suffix "u" then Some (10, -6, DecimalSI)
  else if String.eqb suffix "m" then Some (10, -3, DecimalSI)
  else if String.eqb suffix "" then Some (10, 0, DecimalSI)
  else if String.eqb suffix "k" then Some (10, 3, DecimalSI)
  else if String.eqb suffix "M" then Some (10, 6, DecimalSI)
  else if String.eqb suffix "G" then Some (10, 9, DecimalSI)
  else if String.eqb suffix "T" then Some (10, 12, DecimalSI)
  else if String.eqb suffix "P" then Some (10, 15, DecimalSI)
  else if String.eqb suffix "E" then Some (10, 18, DecimalSI)
  else if String.eqb suffix "Ki" then Some (2, 10, BinarySI)
  else if String.eqb suffix "Mi" then Some (2, 20, BinarySI)
  else if String.eqb suffix "Gi" then Some (2, 30, BinarySI)
  else if String.eqb suffix "Ti" then Some (2, 40, BinarySI)
  else if String.eqb suffix "Pi" then Some (2, 50, BinarySI)
  else if String.eqb suffix "Ei" then Some (2, 60, BinarySI)
  else
    match suffix with
    | String c rest =>
        if (Ascii.eqb c "e" || Ascii.eqb c "E") && negb (String.eqb rest "")
        then parsed ← ParseInt rest; Some (10, int32 parsed, DecimalExponent)
        else None
    | EmptyString => None
    end.

(** [a / b] rounded up, for [0 ≤ a] and [0 < b]. *)
Definition ceilDiv (a b : Z) : Z := (a + b - 1) / b.

(** [unscaled * 10^power] billionths, rounded up to a whole number. *)
Definition scaleUp (unscaled power : Z) : Z :=
  if 0 <=? power then unscaled * 10 ^ power
  else ceilDiv unscaled (10 ^ (- power)).

Definition ParseQuantity (str : string) : t * error :=
  let failed (msg : string) := (mk 0 None "", Some msg) in
  if String.eqb str "" then failed ErrFormatWrong
  else if String.eqb str "0" then (mk 0 (Some DecimalSI) "", None)
  else
    match parseQuantityString str with
    | inr msg => failed msg
    | inl p =>
        match interpret (suffix p) with
        | None => failed ErrSuffix
        | Some (base, exponent, format) =>
            let digits := Z.of_nat (String.length (num p) + String.length (denom p)) in
            let fastBinary :=
              (0 <=? exponent) && String.eqb (denom p) "" in
            let precision :=
              match format with
              | BinarySI =>
                  if fastBinary
                  then 15 - Z.of_nat (String.length (num p)) - exponent * 3 / 10
                  else -1
              | _ => 18 - digits
              end in
            let scale := match format with BinarySI => 0 | _ => exponent end in
            let mantissa :=
              match format with
              | BinarySI => if fastBinary then 2 ^ exponent else 1
              | _ => 1
              end in
            let scale' := scale - Z.of_nat (String.length (denom p)) in
            let shifted := num p +:+ denom p in
            let unscaled := digitsValue shifted in
            let slow (_ : unit) :=
              if negb (hasDigit (value p)) then failed ErrNumeric
              else
                let power := 9 - Z.of_nat (String.length (denom p)) in
                let amount :=
                  if base =? 10 then scaleUp unscaled (power + exponent)
                  else scaleUp (unscaled * 2 ^ exponent) power in
                let amount :=
                  match format with
                  | BinarySI => Z.min amount (maxInt64 * 10 ^ 9)
                  | _ => amount
                  end in
                let format :=
                  match format with
                  | BinarySI =>
                      if (0 <? amount) && (amount <? 10 ^ 9)
                      then DecimalSI else BinarySI
                  | _ => format
                  end in
                (mk (if positive p then amount else - amount) (Some format) "",
                 None) in
            if (0 <=? precision) && (-9 <=? scale')
            then
              if maxInt64 <? unscaled then failed ErrNumeric
              else if maxInt64 <? unscaled * mantissa then slow tt
              else
                let result := unscaled * mantissa in
                let result := if positive p then result else - result in
                let canonical :=
                  match format with
                  | BinarySI =>
                      (exponent mod 10 =? 0) && negb (Z.land unscaled 7 =? 0)
                  | _ =>
                      (scale' mod 3 =? 0) && negb (hasSuffix000 shifted)
                      && negb (String.prefix "0" shifted)
                  end in
                (mk (result * 10 ^ (scale' + 9)) (Some format)
                    (if canonical then str else ""), None)
            else slow tt
        end
    end.

Definition IsZero (q : t) : bool := nanos q =? 0.

(** How often [b] divides [n], at most [fuel] times, and what is left. *)
Fixpoint removeFactors (fuel : nat) (b n : Z) : Z * Z :=
  match fuel with
  | O => (n, 0)
  | S fuel' =>
      if (n mod b =? 0) && negb (n =? 0)
      then let '(m, times) := removeFactors fuel' b (n / b) in (m, times + 1)
      else (n, 0)
  end.

(** [AsCanonicalBytes]: mantissa and exponent of ten, the exponent a
    multiple of three. *)
Definition canonicalDecimal (n : Z) : Z * Z :=
  let '(m, times) := removeFactors (Z.to_nat (Z.log2 (Z.abs n)) + 1) 10 n in
  let exponent := times - 9 in
  (m * 10 ^ (exponent mod 3), exponent - exponent mod 3).

Definition decimalSuffix (exponent : Z) : string :=
  if exponent =? -9 then "n"
  else if exponent =? -6 then "u"
  else if exponent =? -3 then "m"
  else if exponent =? 3 then "k"
  else if exponent =? 6 then "M"
  else if exponent =? 9 then "G"
  else if exponent =? 12 then "T"
  else if exponent =? 15 then "P"
  else if exponent =? 18 then "E"
  else "".

Definition binarySuffix (exponent : Z) : string :=
  if exponent =? 10 then "Ki"
  else if exponent =? 20 then "Mi"
  else if exponent =? 30 then "Gi"
  else if exponent =? 40 then "Ti"
  else if exponent =? 50 then "Pi"
  else if exponent =? 60 then "Ei"
  else "".

Definition exponentSuffix (exponent : Z) : string :=
  if exponent =? 0 then "" else "e" +:+ pretty exponent.

(** [CanonicalizeBytes]: number and suffix of the canonical form. *)
Definition Canonicalize (q : t) : string * string :=
  if IsZero q then ("0", "")
  else
    let decimal (suffixOf : Z → string) :=
      let '(m, exponent) := canonicalDecimal (nanos q) in
      (pretty m, suffixOf exponent) in
    match format q with
    | Some DecimalSI => decimal decimalSuffix
    | Some BinarySI =>
        if (-1024 * 10 ^ 9 <? nanos q) && (nanos q <? 1024 * 10 ^ 9)
        then decimal decimalSuffix
        else
          let whole := Z.sgn (nanos q) * ceilDiv (Z.abs (nanos q)) (10 ^ 9) in
          let '(m, times) := removeFactors 7 1024 whole in
          (pretty m, binarySuffix (times * 10))
    | _ => decimal exponentSuffix
    end.

Definition toString (q : t) : string :=
  if String.eqb (s q) ""
  then let '(number, suffix) := Canonicalize q in number +:+ suffix
  else s q.

End resource.

Module Ref.

Definition quantity : QuantityAPI :=
  {| Quantity := resource.t;
     zeroQuantity := λ f, resource.mk 0 (Some f) "";
     IsZero := resource.IsZero;
     QString := resource.toString;
     ParseQuantity := resource.ParseQuantity |}.

(** A claim spec is reduced to its storage class. *)
Definition keeping : ClusterAPI :=
  {| PersistentVolumeClaimSpec := string;
     Store := gmap (string * string) string;
     createOrUpdate := λ spec name ns st, (None, <[(ns, name) := spec]> st) |}.

Definition refusing : ClusterAPI :=
  {| PersistentVolumeClaimSpec := string;
     Store := unit;
     createOrUpdate := λ _ _ _ st, (Some "forbidden", st) |}.

Definition roleIsMaster (role : string) : string :=
  if String.eqb role "master" then "true" else "false".

Definition roleIsData (role : string) : string :=
  if String.eqb role "data" then "true" else "false".

Definition noStorage : ElasticsearchStorageSource.t resource.t string :=
  ElasticsearchStorageSource.mk None None None None.

Definition noResources : ResourceRequirements.t resource.t :=
  ResourceRequirements.mk ∅ ∅.

(** The node of the spec's first scenario: an empty node spec, role
    "master", security off. *)
Definition emptyNode : elasticsearchNode.t resource.t string :=
  {| elasticsearchNode.ClusterName := "logs";
     elasticsearchNode.Namespace := "logging";
     elasticsearchNode.DeployName := "es-node-1";
     elasticsearchNode.NodeType := "master";
     elasticsearchNode.ESNodeSpec :=
       {| ElasticsearchNode.Config := ElasticsearchConfig.mk "";
          ElasticsearchNode.NodeSelector := ∅;
          ElasticsearchNode.Storage := noStorage;
          ElasticsearchNode.Resources := noResources |};
     elasticsearchNode.ElasticsearchSecure := ElasticsearchSecure.mk false |}.

(** The node of the spec's second scenario: a memory limit of "8Gi" and
    security on; its storage is a claim template named "data". *)
Definition secureNode : elasticsearchNode.t resource.t string :=
  {| elasticsearchNode.ClusterName := "logs";
     elasticsearchNode.Namespace := "logging";
     elasticsearchNode.DeployName := "es-node-1";
     elasticsearchNode.NodeType := "data";
     elasticsearchNode.ESNodeSpec :=
       {| ElasticsearchNode.Config := ElasticsearchConfig.mk "";
          ElasticsearchNode.NodeSelector := ∅;
          ElasticsearchNode.Storage :=
            ElasticsearchStorageSource.mk None None
              (Some (PersistentVolumeClaim.mk "data" "standard")) None;
          ElasticsearchNode.Resources :=
            ResourceRequirements.mk
              (<["memory" := (resource.ParseQuantity "8Gi").1]> ∅) ∅ |};
     elasticsearchNode.ElasticsearchSecure := ElasticsearchSecure.mk true |}.

(** A node whose storage has all four variants set at once. *)
Definition crowdedNode : elasticsearchNode.t resource.t string :=
  {| elasticsearchNode.ClusterName := "logs";
     elasticsearchNode.Namespace := "logging";
     elasticsearchNode.DeployName := "es-node-2";
     elasticsearchNode.NodeType := "data";
     elasticsearchNode.ESNodeSpec :=
       {| ElasticsearchNode.Config := ElasticsearchConfig.mk "";
          ElasticsearchNode.NodeSelector := ∅;
          ElasticsearchNode.Storage :=
            ElasticsearchStorageSource.mk
              (Some (HostPathVolumeSource.mk "/mnt/es" None))
              (Some (EmptyDirVolumeSource.mk "" None))
              (Some (PersistentVolumeClaim.mk "data" "standard"))
              (Some (PersistentVolumeClaimVolumeSource.mk "old-claim" false));
          ElasticsearchNode.Resources := noResources |};
     elasticsearchNode.ElasticsearchSecure := ElasticsearchSecure.mk false |}.

Definition keepingWorld : @World.t keeping := World.mk keeping ∅ [].
Definition refusingWorld : @World.t refusing := World.mk refusing tt [].

End Ref.

(** More nodes to run on. *)
Module RefNodes.

(** The empty node moved to another namespace, with an image and a CPU
    limit of its own, a host path for storage and security on; deploy
    name, cluster name, role and memory limit are those of
    [Ref.emptyNode]. *)
Definition movedNode : elasticsearchNode.t resource.t string :=
  {| elasticsearchNode.ClusterName := "logs";
     elasticsearchNode.Namespace := "staging";
     elasticsearchNode.DeployName := "es-node-1";
     elasticsearchNode.NodeType := "master";
     elasticsearchNode.ESNodeSpec :=
       {| ElasticsearchNode.Config := ElasticsearchConfig.mk "registry.local/es:5";
          ElasticsearchNode.NodeSelector := <["disk" := "ssd"]> ∅;
          ElasticsearchNode.Storage :=
            ElasticsearchStorageSource.mk
              (Some (HostPathVolumeSource.mk "/mnt/es" None)) None None None;
          ElasticsearchNode.Resources :=
            ResourceRequirements.mk
              (<["cpu" := (resource.ParseQuantity "2").1]> ∅) ∅ |};
     elasticsearchNode.ElasticsearchSecure := ElasticsearchSecure.mk true |}.

(** A second node on the claim template "data", in another namespace of
    another cluster. *)
Definition secondNode : elasticsearchNode.t resource.t string :=
  {| elasticsearchNode.ClusterName := "metrics";
     elasticsearchNode.Namespace := "monitoring";
     elasticsearchNode.DeployName := "es-node-2";
     elasticsearchNode.NodeType := "data";
     elasticsearchNode.ESNodeSpec :=
       {| ElasticsearchNode.Config := ElasticsearchConfig.mk "";
          ElasticsearchNode.NodeSelector := ∅;
          ElasticsearchNode.Storage :=
            ElasticsearchStorageSource.mk None None
              (Some (PersistentVolumeClaim.mk "data" "fast")) None;
          ElasticsearchNode.Resources := Ref.noResources |};
     elasticsearchNode.ElasticsearchSecure := ElasticsearchSecure.mk false |}.

(** A node whose memory limit was written "1.953125Ki": 2000 bytes, in the
    binary format. Its other three quantities are set as well. *)
Definition oddNode : elasticsearchNode.t resource.t string :=
  {| elasticsearchNode.ClusterName := "logs";
     elasticsearchNode.Namespace := "logging";
     elasticsearchNode.DeployName := "es-node-3";
     elasticsearchNode.NodeType := "data";
     elasticsearchNode.ESNodeSpec :=
       {| ElasticsearchNode.Config := ElasticsearchConfig.mk "";
          ElasticsearchNode.NodeSelector := ∅;
          ElasticsearchNode.Storage := Ref.noStorage;
          ElasticsearchNode.Resources :=
            ResourceRequirements.mk
              (<["cpu" := (resource.ParseQuantity "2").1]>
                 (<["memory" := (resource.ParseQuantity "1.953125Ki").1]> ∅))
              (<["cpu" := (resource.ParseQuantity "500m").1]>
                 (<["memory" := (resource.ParseQuantity "1Gi").1]> ∅)) |};
     elasticsearchNode.ElasticsearchSecure := ElasticsearchSecure.mk false |}.

End RefNodes.

(** ** Properties of the resolution *)

Section Properties.

Context `{api : QuantityAPI} `{cluster : ClusterAPI}.
Variable roleIsMaster : string → string.
Variable roleIsData : string → string.

Abbreviation node := (elasticsearchNode.t Quantity PersistentVolumeClaimSpec).
Abbreviation getESContainer' := (getESContainer roleIsMaster roleIsData).
Abbreviation getEnvVars' := (getEnvVars roleIsMaster roleIsData).

(** Unfold the monad down to functions on worlds. *)
Ltac run :=
  unfold mbind, M_bind, mret, M_ret, Infof, Errorf, emit,
    createOrUpdatePersistentVolumeClaim in *; cbn [fst snd] in *.

(** *** Shape of the outputs *)

Lemma getResourceRequirements_limits_memory (cfg : node) (w : World.t) :
  ResourceRequirements.Limits (getResourceRequirements cfg w).1 !! "memory"
  = Some (ParseQuantity (getInstanceRAM cfg)).1.
Proof.
  unfold getResourceRequirements. run. cbn [ResourceRequirements.Limits].
  rewrite lookup_insert_ne by done. apply lookup_insert_eq.
Qed.

Lemma getESContainer_resources (cfg : node) (w : World.t) :
  Container.Resources (getESContainer' cfg w).1
  = (getResourceRequirements cfg w).1.
Proof.
  unfold getESContainer. run.
  by destruct (getResourceRequirements cfg w).
Qed.

Lemma getESContainer_env (cfg : node) (w : World.t) :
  Container.Env (getESContainer' cfg w).1 = getEnvVars' cfg.
Proof.
  unfold getESContainer. run.
  by destruct (getResourceRequirements cfg w).
Qed.

Lemma getInstanceRAM_cases (cfg : node) :
  getInstanceRAM cfg
  = if IsZero (memoryLimitOf cfg) then "4Gi" else QString (memoryLimitOf cfg).
Proof.
  unfold getInstanceRAM, memoryLimitOf. by destruct (IsZero _).
Qed.

(** C1, as the code has it. The INSTANCE_RAM entry of the container's
    environment holds the text of the node's memory limit when that is
    not zero and "4Gi" when it is, and the memory limit in the container's
    resources is that very text parsed by [ParseQuantity]: one rule, its
    result used twice. The text of the limit is the text of the entry
    exactly when [ParseQuantity] and then [String] give the entry back;
    nothing in the code makes them do so. *)
Theorem memory_limit_is_instance_ram_parsed (cfg : node) (w : World.t) :
  let c := (getESContainer' cfg w).1 in
  let ram :=
    if IsZero (memoryLimitOf cfg) then "4Gi" else QString (memoryLimitOf cfg) in
  getInstanceRAM cfg = ram
  ∧ lookupEnv "INSTANCE_RAM" (Container.Env c) = Some (env "INSTANCE_RAM" ram)
  ∧ ResourceRequirements.Limits (Container.Resources c) !! "memory"
    = Some (ParseQuantity ram).1
  ∧ (QString <$> ResourceRequirements.Limits (Container.Resources c) !! "memory"
     = EnvVar.Value <$> lookupEnv "INSTANCE_RAM" (Container.Env c)
     ↔ QString (ParseQuantity ram).1 = ram).
Proof.
  intros c ram. subst c.
  rewrite getESContainer_env, getESContainer_resources.
  rewrite getResourceRequirements_limits_memory.
  assert (Hram : getInstanceRAM cfg = ram) by apply getInstanceRAM_cases.
  rewrite Hram. split; [reflexivity|].
  assert (Henv : lookupEnv "INSTANCE_RAM" (getEnvVars' cfg)
                 = Some (env "INSTANCE_RAM" ram)).
  { cbn. by rewrite Hram. }
  rewrite Henv. split; [reflexivity|]. split; [reflexivity|].
  cbn. split; [by intros [= ->] | by intros ->].
Qed.

Lemma getResourceRequirements_value (cfg : node) (w : World.t) :
  (getResourceRequirements cfg w).1
  = {| ResourceRequirements.Limits :=
         <["cpu" := if IsZero (cpuLimitOf cfg)
                    then (ParseQuantity "4000m").1 else cpuLimitOf cfg]>
           (<["memory" := (ParseQuantity (getInstanceRAM cfg)).1]> ∅);
       ResourceRequirements.Requests :=
         <["cpu" := if IsZero (cpuRequestOf cfg)
                    then (ParseQuantity "100m").1 else cpuRequestOf cfg]>
           (<["memory" := if IsZero (memoryRequestOf cfg)
                          then (ParseQuantity "1Gi").1
                          else memoryRequestOf cfg]> ∅) |}.
Proof. reflexivity. Qed.

Lemma Cpu_empty : Cpu ∅ = zeroQuantity DecimalSI.
Proof. reflexivity. Qed.

Lemma Memory_empty : Memory ∅ = zeroQuantity BinarySI.
Proof. reflexivity. Qed.

(** C2, as the code has it. The CPU limit, the CPU request and the memory
    request are the node's own when that is not zero, and the quantities
    written "4000m", "100m" and "1Gi" otherwise. The memory limit is never
    the node's own: when that is not zero it is what [ParseQuantity] reads
    from its text, and the quantity written "4Gi" otherwise. A node with no
    resources at all gets the four defaults, the quantity of an absent
    entry being zero. *)
Theorem resources_default_when_zero (cfg : node) (w : World.t) :
  let r := (getResourceRequirements cfg w).1 in
  (IsZero (cpuLimitOf cfg) = false →
     ResourceRequirements.Limits r !! "cpu" = Some (cpuLimitOf cfg))
  ∧ (IsZero (cpuLimitOf cfg) = true →
     ResourceRequirements.Limits r !! "cpu" = Some (ParseQuantity "4000m").1)
  ∧ (IsZero (cpuRequestOf cfg) = false →
     ResourceRequirements.Requests r !! "cpu" = Some (cpuRequestOf cfg))
  ∧ (IsZero (cpuRequestOf cfg) = true →
     ResourceRequirements.Requests r !! "cpu" = Some (ParseQuantity "100m").1)
  ∧ (IsZero (memoryLimitOf cfg) = false →
     ResourceRequirements.Limits r !! "memory"
     = Some (ParseQuantity (QString (memoryLimitOf cfg))).1)
  ∧ (IsZero (memoryLimitOf cfg) = true →
     ResourceRequirements.Limits r !! "memory" = Some (ParseQuantity "4Gi").1)
  ∧ (IsZero (memoryRequestOf cfg) = false →
     ResourceRequirements.Requests r !! "memory" = Some (memoryRequestOf cfg))
  ∧ (IsZero (memoryRequestOf cfg) = true →
     ResourceRequirements.Requests r !! "memory"
     = Some (ParseQuantity "1Gi").1)
  ∧ ((∀ f, IsZero (zeroQuantity f) = true) →
     ElasticsearchNode.Resources (elasticsearchNode.ESNodeSpec cfg)
     = ResourceRequirements.mk ∅ ∅ →
     r = {| ResourceRequirements.Limits :=
              <["cpu" := (ParseQuantity "4000m").1]>
                (<["memory" := (ParseQuantity "4Gi").1]> ∅);
            ResourceRequirements.Requests :=
              <["cpu" := (ParseQuantity "100m").1]>
                (<["memory" := (ParseQuantity "1Gi").1]> ∅) |}).
Proof.
  intros r. subst r. rewrite getResourceRequirements_value.
  cbn [ResourceRequirements.Limits ResourceRequirements.Requests].
  rewrite getInstanceRAM_cases.
  repeat split.
  - intros ->. apply lookup_insert_eq.
  - intros ->. apply lookup_insert_eq.
  - intros ->. apply lookup_insert_eq.
  - intros ->. apply lookup_insert_eq.
  - intros ->. rewrite lookup_insert_ne by done. apply lookup_insert_eq.
  - intros ->. rewrite lookup_insert_ne by done. apply lookup_insert_eq.
  - intros ->. rewrite lookup_insert_ne by done. apply lookup_insert_eq.
  - intros ->. rewrite lookup_insert_ne by done. apply lookup_insert_eq.
  - intros Hzero Hres.
    unfold cpuLimitOf, cpuRequestOf, memoryLimitOf, memoryRequestOf.
    rewrite Hres. cbn [ResourceRequirements.Limits ResourceRequirements.Requests].
    rewrite Cpu_empty, Memory_empty, !Hzero. reflexivity.
Qed.

(** *** Storage *)

Lemma generatePersistentStorage_populated (cfg : node) (w : World.t) :
  (VolumeSource.populated (generatePersistentStorage cfg w).1 ≤ 1)%nat.
Proof.
  unfold generatePersistentStorage. run.
  destruct (storageOf cfg) as [[h|] [e|] [t|] [c|]]; cbn; try lia;
    destruct (createOrUpdate _ _ _ _) as [[msg|] st]; cbn; lia.
Qed.

(** C3. The volume source [generatePersistentStorage] returns has the one
    member chosen by the order host path, empty dir, claim template,
    existing claim: a host path wins whatever else is set, an empty dir
    wins when there is no host path, a template when there is neither,
    an existing claim when it alone is set. Never more than one member of
    the result is set. *)
Theorem storage_precedence (cfg : node) (w : World.t) :
  let v := (generatePersistentStorage cfg w).1 in
  (VolumeSource.populated v ≤ 1)%nat
  ∧ (∀ h, ElasticsearchStorageSource.HostPath (storageOf cfg) = Some h →
       v = onlyHostPath h)
  ∧ (∀ e, ElasticsearchStorageSource.HostPath (storageOf cfg) = None →
       ElasticsearchStorageSource.EmptyDir (storageOf cfg) = Some e →
       v = onlyEmptyDir e)
  ∧ (∀ t, ElasticsearchStorageSource.HostPath (storageOf cfg) = None →
       ElasticsearchStorageSource.EmptyDir (storageOf cfg) = None →
       ElasticsearchStorageSource.VolumeClaimTemplate (storageOf cfg) = Some t →
       v = onlyClaim (PersistentVolumeClaimVolumeSource.mk (claimNameOf t cfg) false))
  ∧ (∀ c, ElasticsearchStorageSource.HostPath (storageOf cfg) = None →
       ElasticsearchStorageSource.EmptyDir (storageOf cfg) = None →
       ElasticsearchStorageSource.VolumeClaimTemplate (storageOf cfg) = None →
       ElasticsearchStorageSource.PersistentVolumeClaim (storageOf cfg) = Some c →
       v = onlyClaim c).
Proof.
  intros v. split; [apply generatePersistentStorage_populated|].
  subst v. unfold generatePersistentStorage. run.
  repeat split.
  - intros h ->. reflexivity.
  - intros e -> ->. reflexivity.
  - intros t -> -> ->.
    by destruct (createOrUpdate _ _ _ _) as [[msg|] st].
  - intros c -> -> -> ->. reflexivity.
Qed.

Lemma events_of_app {A : Type} (m : M A) (w : World.t)
    (es : list (Event PersistentVolumeClaimSpec)) :
  World.trace (m w).2 = (World.trace w ++ es)%list → events_of m w = es.
Proof. unfold events_of. intros ->. apply drop_app_length. Qed.

(** C5. With the claim template chosen (no host path, no empty dir), the
    claim is named "<template name>-<deploy name>"; the store is asked to
    create or update exactly once, with the template's spec, that name
    and the node's namespace; and the volume source returned refers to
    that name whether the store answered with an error or not. An error
    is logged and nothing else happens. *)
Theorem claim_template_upsert (cfg : node) (w : World.t)
    (t : PersistentVolumeClaim.t PersistentVolumeClaimSpec) :
  ElasticsearchStorageSource.HostPath (storageOf cfg) = None →
  ElasticsearchStorageSource.EmptyDir (storageOf cfg) = None →
  ElasticsearchStorageSource.VolumeClaimTemplate (storageOf cfg) = Some t →
  let claimName :=
    PersistentVolumeClaim.Name t +:+ "-" +:+ elasticsearchNode.DeployName cfg in
  let call :=
    Upserted (PersistentVolumeClaim.Spec t) claimName
             (elasticsearchNode.Namespace cfg) in
  let answer :=
    createOrUpdate (PersistentVolumeClaim.Spec t) claimName
                   (elasticsearchNode.Namespace cfg) (World.store w) in
  (generatePersistentStorage cfg w).1
  = onlyClaim (PersistentVolumeClaimVolumeSource.mk claimName false)
  ∧ List.filter is_upsert (events_of (generatePersistentStorage cfg) w) = [call]
  ∧ events_of (generatePersistentStorage cfg) w
    = call :: match answer.1 with
              | Some msg =>
                  [Logged ErrorLevel
                     ("Unable to create PersistentVolumeClaim: " +:+ msg)]
              | None => []
              end
  ∧ World.store (generatePersistentStorage cfg w).2 = answer.2.
Proof.
  intros Hh He Ht claimName call answer.
  assert (Hrun : generatePersistentStorage cfg w
    = (onlyClaim (PersistentVolumeClaimVolumeSource.mk claimName false),
       World.mk _ answer.2
         (World.trace w ++ call :: match answer.1 with
              | Some msg =>
                  [Logged ErrorLevel
                     ("Unable to create PersistentVolumeClaim: " +:+ msg)]
              | None => []
              end)%list)).
  { unfold generatePersistentStorage. run. rewrite Hh, He, Ht.
    subst answer call claimName. unfold Sprintf_s_dash_s.
    destruct (createOrUpdate _ _ _ _) as [[msg|] st]; cbn.
    - by rewrite <- app_assoc.
    - reflexivity. }
  assert (Hev : events_of (generatePersistentStorage cfg) w
    = call :: match answer.1 with
              | Some msg =>
                  [Logged ErrorLevel
                     ("Unable to create PersistentVolumeClaim: " +:+ msg)]
              | None => []
              end).
  { apply events_of_app. by rewrite Hrun. }
  rewrite Hev, Hrun. repeat split.
  by destruct answer.1.
Qed.

(** *** Volumes and mounts *)

Lemma getVolumes_run (cfg : node) (w : World.t) :
  getVolumes cfg w
  = (storageVolume (generatePersistentStorage cfg w).1 :: configVolume cfg
       :: (if secureOf cfg then [certificatesVolume cfg] else []),
     (generatePersistentStorage cfg w).2).
Proof.
  unfold getVolumes. run.
  destruct (generatePersistentStorage cfg w) as [source w'].
  by destruct (secureOf cfg).
Qed.

Lemma getVolumeMounts_value (cfg : node) :
  getVolumeMounts cfg
  = VolumeMount.mk "elasticsearch-storage" "/elasticsearch/persistent"
    :: VolumeMount.mk "elasticsearch-config" "/usr/share/java/elasticsearch/config"
    :: (if secureOf cfg then [certificatesMount] else []).
Proof. unfold getVolumeMounts. by destruct (secureOf cfg). Qed.

Lemma getESContainer_mounts (cfg : node) (w : World.t) :
  Container.VolumeMounts (getESContainer' cfg w).1 = getVolumeMounts cfg.
Proof.
  unfold getESContainer. run.
  by destruct (getResourceRequirements cfg w).
Qed.

Lemma certificates_volumes (cfg : node) (w : World.t) :
  volumesNamed "certificates" (getVolumes cfg w).1
  = if secureOf cfg then [certificatesVolume cfg] else [].
Proof. rewrite getVolumes_run. cbn. by destruct (secureOf cfg). Qed.

Lemma certificates_mounts (cfg : node) :
  mountsNamed "certificates" (getVolumeMounts cfg)
  = if secureOf cfg then [certificatesMount] else [].
Proof. rewrite getVolumeMounts_value. cbn. by destruct (secureOf cfg). Qed.

(** C4. The security flag is on exactly when the volumes hold the
    credentials volume (named "certificates", from the secret
    "<cluster name>-certs") and the container's mounts hold the
    credentials mount (same name); it is off exactly when no volume and no
    mount bears that name. A volume of that name without a mount of that
    name, or the reverse, does not occur. *)
Theorem security_flag_volume_and_mount (cfg : node) (w w' : World.t) :
  let vols := (getVolumes cfg w).1 in
  let mounts := Container.VolumeMounts (getESContainer' cfg w').1 in
  (secureOf cfg = true ↔
     volumesNamed "certificates" vols = [certificatesVolume cfg]
     ∧ mountsNamed "certificates" mounts = [certificatesMount])
  ∧ (secureOf cfg = false ↔
     volumesNamed "certificates" vols = []
     ∧ mountsNamed "certificates" mounts = [])
  ∧ (volumesNamed "certificates" vols = []
     ↔ mountsNamed "certificates" mounts = []).
Proof.
  intros vols mounts. subst vols mounts.
  rewrite getESContainer_mounts, certificates_volumes, certificates_mounts.
  destruct (secureOf cfg); repeat split; try done; by intros [? ?].
Qed.

(** C6. With no storage variant set, [generatePersistentStorage] returns
    the volume source with every member nil, logs one line and does
    nothing else; [getVolumes] still returns its list, with that empty
    source in the storage volume. *)
Theorem no_storage_variant (cfg : node) (w : World.t) :
  storageOf cfg = ElasticsearchStorageSource.mk None None None None →
  (generatePersistentStorage cfg w).1 = VolumeSource.zero
  ∧ VolumeSource.populated (generatePersistentStorage cfg w).1 = 0%nat
  ∧ events_of (generatePersistentStorage cfg) w
    = [Logged InfoLevel "Unknown volume source"]
  ∧ World.store (generatePersistentStorage cfg w).2 = World.store w
  ∧ (getVolumes cfg w).1
    = storageVolume VolumeSource.zero :: configVolume cfg
        :: (if secureOf cfg then [certificatesVolume cfg] else [])
  ∧ events_of (getVolumes cfg) w = [Logged InfoLevel "Unknown volume source"].
Proof.
  intros Hnone.
  assert (Hrun : generatePersistentStorage cfg w
    = (VolumeSource.zero,
       World.mk _ (World.store w)
         (World.trace w ++ [Logged InfoLevel "Unknown volume source"])%list)).
  { unfold generatePersistentStorage. by rewrite Hnone. }
  assert (Hev : events_of (generatePersistentStorage cfg) w
    = [Logged InfoLevel "Unknown volume source"]).
  { apply events_of_app. by rewrite Hrun. }
  rewrite Hev, getVolumes_run, Hrun. repeat split.
  apply events_of_app. by rewrite getVolumes_run, Hrun.
Qed.

(** *** The security flag and the other artifacts *)

Lemma getInstanceRAM_with_secure (b : bool) (cfg : node) :
  getInstanceRAM (elasticsearchNode.with_secure b cfg) = getInstanceRAM cfg.
Proof. reflexivity. Qed.

Lemma getResourceRequirements_with_secure (b : bool) (cfg : node) (w : World.t) :
  getResourceRequirements (elasticsearchNode.with_secure b cfg) w
  = getResourceRequirements cfg w.
Proof. reflexivity. Qed.

Lemma getESContainer_with_secure (b : bool) (cfg : node) (w : World.t) :
  let c := (getESContainer' cfg w).1 in
  let c' := (getESContainer' (elasticsearchNode.with_secure b cfg) w).1 in
  c' = Container.mk (Container.Name c) (Container.Image c)
         (Container.ImagePullPolicy c) (Container.Env c) (Container.Ports c)
         (Container.ReadinessProbe c) (Container.LivenessProbe c)
         (Container.VolumeMounts c') (Container.Resources c)
  ∧ (getESContainer' (elasticsearchNode.with_secure b cfg) w).2
    = (getESContainer' cfg w).2.
Proof.
  intros c c'. subst c c'. unfold getESContainer. run.
  rewrite getResourceRequirements_with_secure.
  by destruct (getResourceRequirements cfg w) as [r w'].
Qed.

Lemma with_secure_of_agreeing (cfg1 cfg2 : node) :
  sameButSecure cfg1 cfg2 →
  cfg2 = elasticsearchNode.with_secure (secureOf cfg2) cfg1.
Proof.
  destruct cfg1, cfg2 as [? ? ? ? ? [enabled]]. unfold sameButSecure. cbn.
  by intros (-> & -> & -> & -> & ->).
Qed.

(** C7. Two nodes that differ in the security flag alone get the same
    container but for its mounts (same name, image, pull policy,
    environment, ports, probes and resources, and the same log line) and
    the same affinity. *)
Theorem security_flag_frame (cfg1 cfg2 : node) (w : World.t) :
  sameButSecure cfg1 cfg2 →
  let c1 := (getESContainer' cfg1 w).1 in
  let c2 := (getESContainer' cfg2 w).1 in
  Container.Env c2 = Container.Env c1
  ∧ Container.Image c2 = Container.Image c1
  ∧ Container.Ports c2 = Container.Ports c1
  ∧ Container.ReadinessProbe c2 = Container.ReadinessProbe c1
  ∧ Container.LivenessProbe c2 = Container.LivenessProbe c1
  ∧ Container.Resources c2 = Container.Resources c1
  ∧ Container.Name c2 = Container.Name c1
  ∧ Container.ImagePullPolicy c2 = Container.ImagePullPolicy c1
  ∧ getAffinity cfg2 = getAffinity cfg1
  ∧ (getESContainer' cfg2 w).2 = (getESContainer' cfg1 w).2.
Proof.
  intros Hsame c1 c2. subst c1 c2.
  rewrite (with_secure_of_agreeing cfg1 cfg2 Hsame).
  destruct (getESContainer_with_secure (secureOf cfg2) cfg1 w) as [-> ->].
  repeat split.
Qed.

(** *** Running twice *)

Lemma generatePersistentStorage_any_world (cfg : node) (w w' : World.t) :
  (generatePersistentStorage cfg w).1 = (generatePersistentStorage cfg w').1.
Proof.
  unfold generatePersistentStorage. run.
  destruct (storageOf cfg) as [[h|] [e|] [t|] [c|]]; cbn; try done;
    by destruct (createOrUpdate _ _ _ (World.store w)) as [[?|] ?],
                (createOrUpdate _ _ _ (World.store w')) as [[?|] ?].
Qed.

Lemma getVolumes_any_world (cfg : node) (w w' : World.t) :
  (getVolumes cfg w).1 = (getVolumes cfg w').1.
Proof.
  rewrite !getVolumes_run. cbn [fst].
  by rewrite (generatePersistentStorage_any_world cfg w w').
Qed.

Lemma getESContainer_any_world (cfg : node) (w w' : World.t) :
  (getESContainer' cfg w).1 = (getESContainer' cfg w').1.
Proof. reflexivity. Qed.

(** C8. Resolving a node a second time, in the world the first resolution
    left behind, gives the same container and the same list of volumes:
    neither depends on what the store holds, on what was logged, or on
    whether the store accepted the claim. The affinity is a function of
    the node alone. *)
Theorem resolution_is_repeatable (cfg : node) (w : World.t) :
  let first := getESContainer' cfg w in
  let second := getESContainer' cfg first.2 in
  let firstVols := getVolumes cfg second.2 in
  let secondVols := getVolumes cfg firstVols.2 in
  second.1 = first.1
  ∧ secondVols.1 = firstVols.1
  ∧ (∀ w1 w2 : World.t,
       (getESContainer' cfg w1).1 = (getESContainer' cfg w2).1
       ∧ (getVolumes cfg w1).1 = (getVolumes cfg w2).1).
Proof.
  intros first second firstVols secondVols. repeat split.
  - apply getVolumes_any_world.
  - apply getVolumes_any_world.
Qed.

(** *** Probe and environment *)

(** C9. The probe is a TCP check of port 9300 with an initial delay of 10
    seconds, a timeout of 30 and a failure threshold of 15; the container
    carries it as both readiness and liveness probe; and the
    READINESS_PROBE_TIMEOUT entry is "30", the probe's timeout in
    decimal. *)
Theorem probe_and_its_timeout (cfg : node) (w : World.t) :
  let c := (getESContainer' cfg w).1 in
  Handler.TCPSocket (Probe.Handler getReadinessProbe)
  = Some (TCPSocketAction.mk (FromInt 9300) "")
  ∧ Probe.InitialDelaySeconds getReadinessProbe = 10
  ∧ Probe.TimeoutSeconds getReadinessProbe = 30
  ∧ Probe.FailureThreshold getReadinessProbe = 15
  ∧ Container.ReadinessProbe c = Some getReadinessProbe
  ∧ Container.LivenessProbe c = Some getReadinessProbe
  ∧ EnvVar.Value <$> lookupEnv "READINESS_PROBE_TIMEOUT" (Container.Env c)
    = Some "30"
  ∧ pretty (Probe.TimeoutSeconds getReadinessProbe) = "30".
Proof.
  intros c. subst c. rewrite getESContainer_env.
  unfold getESContainer. run.
  destruct (getResourceRequirements cfg w) as [r w']. cbn.
  repeat split.
Qed.

(** C10. The environment has 17 entries, under the same names in the same
    order for every node; among them HEAP_DUMP_LOCATION, always
    "/elasticsearch/persistent/heapdump.hprof", and PROMETHEUS_USER,
    always "prometheus". *)
Theorem environment_names (cfg : node) :
  length (getEnvVars' cfg) = 17%nat
  ∧ EnvVar.Name <$> getEnvVars' cfg
    = ["DC_NAME"; "NAMESPACE"; "KUBERNETES_TRUST_CERT"; "SERVICE_DNS";
       "CLUSTER_NAME"; "INSTANCE_RAM"; "HEAP_DUMP_LOCATION"; "NODE_QUORUM";
       "RECOVER_EXPECTED_NODES"; "RECOVER_AFTER_TIME";
       "READINESS_PROBE_TIMEOUT"; "POD_LABEL"; "IS_MASTER"; "HAS_DATA";
       "PROMETHEUS_USER"; "PRIMARY_SHARDS"; "REPLICA_SHARDS"]
  ∧ lookupEnv "HEAP_DUMP_LOCATION" (getEnvVars' cfg)
    = Some (env "HEAP_DUMP_LOCATION" "/elasticsearch/persistent/heapdump.hprof")
  ∧ lookupEnv "PROMETHEUS_USER" (getEnvVars' cfg)
    = Some (env "PROMETHEUS_USER" "prometheus").
Proof. repeat split. Qed.

End Properties.

(** ** Further properties of the node helpers *)

Section Further.

Context `{api : QuantityAPI} `{cluster : ClusterAPI}.
Variable roleIsMaster : string → string.
Variable roleIsData : string → string.

Abbreviation node := (elasticsearchNode.t Quantity PersistentVolumeClaimSpec).
Abbreviation getESContainer' := (getESContainer roleIsMaster roleIsData).
Abbreviation getEnvVars' := (getEnvVars roleIsMaster roleIsData).

Ltac run :=
  unfold mbind, M_bind, mret, M_ret, Infof, Errorf, emit,
    createOrUpdatePersistentVolumeClaim in *; cbn [fst snd] in *.

(** *** Volumes against mounts *)

(** X1. The volumes of a pod and the mounts of its container bear the same
    names in the same order, and no name occurs twice: every mount finds
    its volume and every volume is mounted, with security on or off and
    whatever the storage is. *)
Theorem mounts_match_volumes (cfg : node) (w w' : World.t) :
  Volume.Name <$> (getVolumes cfg w).1
  = VolumeMount.Name <$> Container.VolumeMounts (getESContainer' cfg w').1
  ∧ NoDup (Volume.Name <$> (getVolumes cfg w).1).
Proof.
  rewrite getVolumes_run, getESContainer_mounts, getVolumeMounts_value.
  cbn [fst]. destruct (secureOf cfg); cbn; (split; [reflexivity|]);
    by apply (bool_decide_unpack _).
Qed.

Lemma generatePersistentStorage_count (cfg : node) (w : World.t) :
  VolumeSource.populated (generatePersistentStorage cfg w).1
  = if storageSet (storageOf cfg) then 1%nat else 0%nat.
Proof.
  unfold generatePersistentStorage, storageSet. run.
  destruct (storageOf cfg) as [[h|] [e|] [t|] [c|]]; cbn; try done;
    by destruct (createOrUpdate _ _ _ _) as [[msg|] st].
Qed.

(** X2. Every volume [getVolumes] returns has exactly one member of its
    source set if and only if the node's storage has some variant set; no
    volume ever has two. The one volume that can be left without a source
    is the storage volume, when no variant is set. *)
Theorem volumes_have_one_source (cfg : node) (w : World.t) :
  (Forall (λ v, VolumeSource.populated (Volume.VolumeSource v) = 1%nat)
          (getVolumes cfg w).1
   ↔ storageSet (storageOf cfg) = true)
  ∧ Forall (λ v, (VolumeSource.populated (Volume.VolumeSource v) ≤ 1)%nat)
           (getVolumes cfg w).1.
Proof.
  rewrite getVolumes_run. cbn [fst].
  pose proof (generatePersistentStorage_count cfg w) as Hcount.
  split.
  - rewrite Forall_cons. unfold storageVolume at 1. cbn [Volume.VolumeSource].
    rewrite Hcount. split.
    + intros [Hone _]. by destruct (storageSet _).
    + intros ->. split; [done|].
      destruct (secureOf cfg); repeat constructor.
  - apply Forall_cons. split.
    + cbn [storageVolume Volume.VolumeSource]. rewrite Hcount.
      destruct (storageSet _); lia.
    + destruct (secureOf cfg); repeat constructor.
Qed.

(** *** What reaches the world *)

Lemma generatePersistentStorage_quiet (cfg : node) (w : World.t) :
  templateSelected (storageOf cfg) = false →
  storageSet (storageOf cfg) = true →
  (generatePersistentStorage cfg w).2 = w.
Proof.
  unfold generatePersistentStorage, templateSelected, storageSet. run.
  by destruct (storageOf cfg) as [[h|] [e|] [t|] [c|]].
Qed.

Lemma generatePersistentStorage_trace (cfg : node) (w : World.t) :
  ∃ es, World.trace (generatePersistentStorage cfg w).2
        = (World.trace w ++ es)%list
        ∧ (List.filter is_upsert es ≠ [] ↔ templateSelected (storageOf cfg) = true).
Proof.
  unfold generatePersistentStorage, templateSelected. run.
  destruct (storageOf cfg) as [[h|] [e|] [t|] [c|]]; cbn;
    try (exists []; rewrite app_nil_r; by split);
    try (eexists [_]; split; [reflexivity | by split]);
    destruct (createOrUpdate _ _ _ _) as [[msg|] st]; cbn;
    rewrite <- ?app_assoc; eexists; (split; [reflexivity | by split]).
Qed.

(** X3. [getVolumes] asks the store to create or update a claim exactly
    when the claim template is the variant reached (no host path, no
    empty dir, a template). With a host path, an empty dir or an existing
    claim it leaves the world as it found it: no call, no log line. *)
Theorem upsert_only_for_template (cfg : node) (w : World.t) :
  (List.filter is_upsert (events_of (getVolumes cfg) w) ≠ []
   ↔ templateSelected (storageOf cfg) = true)
  ∧ (templateSelected (storageOf cfg) = false →
     storageSet (storageOf cfg) = true →
     (getVolumes cfg w).2 = w).
Proof.
  split.
  - destruct (generatePersistentStorage_trace cfg w) as (es & Htrace & Hes).
    rewrite (events_of_app (getVolumes cfg) w es); [done|].
    by rewrite getVolumes_run.
  - intros Ht Hs. rewrite getVolumes_run. cbn [snd].
    by apply generatePersistentStorage_quiet.
Qed.

Lemma getESContainer_world (cfg : node) (w : World.t) :
  (getESContainer' cfg w).2
  = World.mk _ (World.store w)
      (World.trace w
       ++ [Logged InfoLevel
             ("Using  memory limit: "
              +:+ QString (ParseQuantity (getInstanceRAM cfg)).1
              +:+ ", for node " +:+ elasticsearchNode.DeployName cfg)])%list.
Proof. reflexivity. Qed.

(** X4. Building the container never touches the store and logs one line,
    at info level: the memory limit that line reports is the text of the
    memory limit in the container's resources, and the node it names is
    the one of DC_NAME. *)
Theorem container_logs_memory_limit (cfg : node) (w : World.t) :
  let c := (getESContainer' cfg w).1 in
  ∃ limit dc,
    ResourceRequirements.Limits (Container.Resources c) !! "memory" = Some limit
    ∧ EnvVar.Value <$> lookupEnv "DC_NAME" (Container.Env c) = Some dc
    ∧ events_of (getESContainer' cfg) w
      = [Logged InfoLevel
           ("Using  memory limit: " +:+ QString limit +:+ ", for node " +:+ dc)]
    ∧ World.store (getESContainer' cfg w).2 = World.store w.
Proof.
  intros c. subst c.
  exists (ParseQuantity (getInstanceRAM cfg)).1,
    (elasticsearchNode.DeployName cfg).
  rewrite getESContainer_resources, getResourceRequirements_limits_memory.
  repeat split.
  apply events_of_app. by rewrite getESContainer_world.
Qed.

(** *** Resources *)

Lemma getESContainer_resources_value (cfg : node) (w : World.t) :
  Container.Resources (getESContainer' cfg w).1
  = (getResourceRequirements cfg w).1.
Proof. reflexivity. Qed.

(** X5. The resources of the container name cpu and memory and nothing
    else, in limits and in requests: any other resource the node spec
    lists (storage, devices) is not carried over. *)
Theorem resources_only_cpu_and_memory (cfg : node) (w : World.t) :
  let r := Container.Resources (getESContainer' cfg w).1 in
  dom (ResourceRequirements.Limits r) = ({["cpu"; "memory"]} : gset string)
  ∧ dom (ResourceRequirements.Requests r) = ({["cpu"; "memory"]} : gset string).
Proof.
  intros r. subst r.
  rewrite getESContainer_resources_value, getResourceRequirements_value.
  cbn [ResourceRequirements.Limits ResourceRequirements.Requests].
  rewrite !dom_insert_L, !dom_empty_L. split; set_solver.
Qed.

Lemma getResourceRequirements_of_resources (cfg1 cfg2 : node)
    (w1 w2 : World.t) :
  ElasticsearchNode.Resources (elasticsearchNode.ESNodeSpec cfg1)
  = ElasticsearchNode.Resources (elasticsearchNode.ESNodeSpec cfg2) →
  (getResourceRequirements cfg1 w1).1 = (getResourceRequirements cfg2 w2).1.
Proof.
  intros Hres. rewrite !getResourceRequirements_value, !getInstanceRAM_cases.
  unfold cpuLimitOf, cpuRequestOf, memoryLimitOf, memoryRequestOf.
  by rewrite Hres.
Qed.

(** X6. Two nodes that ask for the same resources get the same resource
    requirements, whatever their roles, names, images or storage: in
    particular a master gets the defaults of every other node. *)
Theorem resources_ignore_the_role (cfg1 cfg2 : node) (w1 w2 : World.t) :
  ElasticsearchNode.Resources (elasticsearchNode.ESNodeSpec cfg1)
  = ElasticsearchNode.Resources (elasticsearchNode.ESNodeSpec cfg2) →
  Container.Resources (getESContainer' cfg1 w1).1
  = Container.Resources (getESContainer' cfg2 w2).1.
Proof.
  intros Hres. rewrite !getESContainer_resources_value.
  by apply getResourceRequirements_of_resources.
Qed.

Lemma Cpu_of_pair (c m : Quantity) :
  Cpu (<["cpu" := c]> (<["memory" := m]> ∅)) = c.
Proof. unfold Cpu. by rewrite lookup_insert_eq. Qed.

Lemma Memory_of_pair (c m : Quantity) :
  Memory (<["cpu" := c]> (<["memory" := m]> ∅)) = m.
Proof.
  unfold Memory. rewrite lookup_insert_ne by done. by rewrite lookup_insert_eq.
Qed.

(** X7. Resolving is idempotent where the text of the memory limit is
    stable: a node that asks for exactly the resources a first resolution
    returned gets them back unchanged, provided none of the four is zero
    and the resolved memory limit prints as the text it was parsed from. *)
Theorem resources_resolve_once (cfg : node) (w w' : World.t) :
  let r := (getResourceRequirements cfg w).1 in
  IsZero (Cpu (ResourceRequirements.Limits r)) = false →
  IsZero (Memory (ResourceRequirements.Limits r)) = false →
  IsZero (Cpu (ResourceRequirements.Requests r)) = false →
  IsZero (Memory (ResourceRequirements.Requests r)) = false →
  QString (Memory (ResourceRequirements.Limits r)) = getInstanceRAM cfg →
  (getResourceRequirements (withResources r cfg) w').1 = r.
Proof.
  intros r. subst r.
  rewrite (getResourceRequirements_value (withResources _ cfg)).
  rewrite (getInstanceRAM_cases (withResources _ cfg)).
  unfold cpuLimitOf, cpuRequestOf, memoryLimitOf, memoryRequestOf.
  cbn [withResources elasticsearchNode.ESNodeSpec ElasticsearchNode.Resources].
  rewrite (getResourceRequirements_value cfg).
  cbn [ResourceRequirements.Limits ResourceRequirements.Requests].
  rewrite !Cpu_of_pair, !Memory_of_pair.
  intros -> Hmem -> -> Htext. by rewrite Hmem, Htext.
Qed.

(** *** Image, ports and probe *)

(** X8. The container's image is never the empty string: it is the image
    the node spec names when it names one, and the default image
    otherwise. *)
Theorem image_is_never_empty (cfg : node) (w : World.t) :
  let image :=
    ElasticsearchConfig.Image
      (ElasticsearchNode.Config (elasticsearchNode.ESNodeSpec cfg)) in
  Container.Image (getESContainer' cfg w).1 ≠ ""
  ∧ (image ≠ "" → Container.Image (getESContainer' cfg w).1 = image)
  ∧ (image = "" →
     Container.Image (getESContainer' cfg w).1
     = "docker.io/t0ffel/elasticsearch5").
Proof.
  intros image.
  assert (Himage : Container.Image (getESContainer' cfg w).1
                   = if String.eqb image "" then elasticsearchDefaultImage
                     else image) by reflexivity.
  rewrite Himage. clear Himage. clearbody image.
  destruct (String.eqb_spec image "") as [Heq|Hne]; [by rewrite Heq|done].
Qed.

(** X9. The port the readiness and liveness probes knock on is a port the
    container declares: the TCP port named "cluster". The declared ports
    have distinct names and distinct numbers. *)
Theorem probe_port_is_declared (cfg : node) (w : World.t) :
  let c := (getESContainer' cfg w).1 in
  (∃ p, p ∈ Container.Ports c
        ∧ ContainerPort.Name p = "cluster"
        ∧ ContainerPort.Protocol p = ProtocolTCP
        ∧ Handler.TCPSocket <$> (Probe.Handler <$> Container.ReadinessProbe c)
          = Some (Some (TCPSocketAction.mk
                          (FromInt (ContainerPort.ContainerPort p)) ""))
        ∧ Handler.TCPSocket <$> (Probe.Handler <$> Container.LivenessProbe c)
          = Some (Some (TCPSocketAction.mk
                          (FromInt (ContainerPort.ContainerPort p)) "")))
  ∧ NoDup (ContainerPort.Name <$> Container.Ports c)
  ∧ NoDup (ContainerPort.ContainerPort <$> Container.Ports c).
Proof.
  intros c. subst c. cbn. split; [|split; by apply (bool_decide_unpack _)].
  eexists. split; [apply list_elem_of_here|]. by repeat split.
Qed.

(** *** Environment *)

(** X10. No name occurs twice in the environment, so looking an entry up
    by its name gives that very entry. *)
Theorem environment_names_are_distinct (cfg : node) :
  NoDup (EnvVar.Name <$> getEnvVars' cfg)
  ∧ Forall (λ e, lookupEnv (EnvVar.Name e) (getEnvVars' cfg) = Some e)
           (getEnvVars' cfg).
Proof.
  split.
  - by apply (bool_decide_unpack _).
  - repeat constructor.
Qed.

(** X11. No entry of the environment carries both a literal value and a
    reference: NAMESPACE is the one entry read from the pod's own
    metadata, its literal value is empty, and every other entry is a
    literal. The node's namespace itself is never copied in. *)
Theorem environment_value_or_reference (cfg : node) :
  Forall (λ e, EnvVar.ValueFrom e = None ∨ EnvVar.Value e = "")
         (getEnvVars' cfg)
  ∧ List.filter hasValueFrom (getEnvVars' cfg)
    = [env_field "NAMESPACE" "metadata.namespace"].
Proof.
  split; [|reflexivity].
  unfold getEnvVars.
  repeat (apply Forall_cons; split; [(by left) || (by right)|]).
  apply Forall_nil_2.
Qed.

(** X12. The environment depends on the node through its deploy name, its
    cluster name, its role and its memory limit alone: namespace, image,
    storage, selector, CPU and requests, and the security flag leave it
    as it is. *)
Theorem environment_frame (cfg1 cfg2 : node) :
  elasticsearchNode.DeployName cfg1 = elasticsearchNode.DeployName cfg2 →
  elasticsearchNode.ClusterName cfg1 = elasticsearchNode.ClusterName cfg2 →
  elasticsearchNode.NodeType cfg1 = elasticsearchNode.NodeType cfg2 →
  memoryLimitOf cfg1 = memoryLimitOf cfg2 →
  getEnvVars' cfg1 = getEnvVars' cfg2.
Proof.
  intros Hdeploy Hcluster Hrole Hmem.
  unfold getEnvVars, isNodeMaster, isNodeData.
  rewrite !getInstanceRAM_cases.
  by rewrite Hdeploy, Hcluster, Hrole, Hmem.
Qed.

(** *** Affinity and selector *)

(** X13. Two nodes get the same affinity exactly when they have the same
    role: the role is all the affinity reads, and it can be read back
    from the affinity. *)
Theorem affinity_is_the_role (cfg1 cfg2 : node) :
  getAffinity cfg1 = getAffinity cfg2
  ↔ elasticsearchNode.NodeType cfg1 = elasticsearchNode.NodeType cfg2.
Proof.
  unfold getAffinity. split.
  - intros Heq. by simplify_eq.
  - by intros ->.
Qed.

(** X14. [getSelector] says true exactly when the node selector has an
    entry, and the map it returns always has the entries of the node
    selector: none when it says false. *)
Theorem selector_flag (cfg : node) :
  let selector :=
    ElasticsearchNode.NodeSelector (elasticsearchNode.ESNodeSpec cfg) in
  ((getSelector cfg).2 = true ↔ selector ≠ ∅)
  ∧ (getSelector cfg).1 = selector
  ∧ ((getSelector cfg).2 = false → (getSelector cfg).1 = ∅).
Proof.
  intros selector. unfold getSelector. fold selector.
  destruct (Nat.eqb_spec (size selector) 0) as [Hsize|Hsize]; cbn.
  - apply map_size_empty_iff in Hsize. rewrite Hsize. by repeat split.
  - repeat split; try done.
    intros _ Hempty. by rewrite Hempty, map_size_empty in Hsize.
Qed.

(** *** Storage *)

Lemma generatePersistentStorage_template (cfg : node) (w : World.t)
    (t : PersistentVolumeClaim.t PersistentVolumeClaimSpec) :
  templateSelected (storageOf cfg) = true →
  ElasticsearchStorageSource.VolumeClaimTemplate (storageOf cfg) = Some t →
  (generatePersistentStorage cfg w).1
  = onlyClaim (PersistentVolumeClaimVolumeSource.mk
                 (PersistentVolumeClaim.Name t +:+ "-"
                  +:+ elasticsearchNode.DeployName cfg) false).
Proof.
  unfold generatePersistentStorage, templateSelected. run.
  destruct (storageOf cfg) as [[h|] [e|] [t'|] c]; cbn; try done.
  intros _ [= ->].
  by destruct (createOrUpdate _ _ _ _) as [[msg|] st].
Qed.

(** X15. Two nodes whose storage is a claim template of the same name are
    bound to the same claim exactly when they have the same deploy name:
    nodes with different deploy names never share a generated claim, and
    neither namespace nor cluster name enters the claim's name. *)
Theorem claims_differ_by_deploy_name (cfg1 cfg2 : node) (w1 w2 : World.t)
    (t1 t2 : PersistentVolumeClaim.t PersistentVolumeClaimSpec) :
  templateSelected (storageOf cfg1) = true →
  templateSelected (storageOf cfg2) = true →
  ElasticsearchStorageSource.VolumeClaimTemplate (storageOf cfg1) = Some t1 →
  ElasticsearchStorageSource.VolumeClaimTemplate (storageOf cfg2) = Some t2 →
  PersistentVolumeClaim.Name t1 = PersistentVolumeClaim.Name t2 →
  ((generatePersistentStorage cfg1 w1).1 = (generatePersistentStorage cfg2 w2).1
   ↔ elasticsearchNode.DeployName cfg1 = elasticsearchNode.DeployName cfg2).
Proof.
  intros Hsel1 Hsel2 Ht1 Ht2 Hname.
  rewrite (generatePersistentStorage_template cfg1 w1 t1 Hsel1 Ht1).
  rewrite (generatePersistentStorage_template cfg2 w2 t2 Hsel2 Ht2).
  rewrite Hname. split.
  - intros [= Heq]. by do 2 apply String.app_inj in Heq.
  - by intros ->.
Qed.

(** X16. The heap dump is written inside the storage mount: the path of
    HEAP_DUMP_LOCATION starts with the mount path of the mount named
    "elasticsearch-storage", followed by a slash. *)
Theorem heap_dump_in_storage_mount (cfg : node) (w : World.t) :
  let c := (getESContainer' cfg w).1 in
  ∃ m e, m ∈ Container.VolumeMounts c
         ∧ VolumeMount.Name m = "elasticsearch-storage"
         ∧ lookupEnv "HEAP_DUMP_LOCATION" (Container.Env c) = Some e
         ∧ String.prefix (VolumeMount.MountPath m +:+ "/") (EnvVar.Value e)
           = true.
Proof.
  intros c. subst c. rewrite getESContainer_mounts, getVolumeMounts_value.
  rewrite getESContainer_env.
  eexists _, _. split; [apply list_elem_of_here|]. by repeat split.
Qed.

(** *** Security *)

(** X17. Turning security on appends the certificates volume and the
    certificates mount at the end and changes nothing before them: the
    storage and configuration volumes and mounts stay as they were, and
    so does what [getVolumes] does to the world. *)
Theorem security_appends (cfg : node) (w : World.t) :
  let off := elasticsearchNode.with_secure false cfg in
  let on := elasticsearchNode.with_secure true cfg in
  (getVolumes on w).1 = ((getVolumes off w).1 ++ [certificatesVolume cfg])%list
  ∧ getVolumeMounts on = (getVolumeMounts off ++ [certificatesMount])%list
  ∧ (getVolumes on w).2 = (getVolumes off w).2.
Proof.
  intros off on. subst off on. rewrite !getVolumes_run. cbn [fst snd].
  repeat split.
Qed.

(** X18. One cluster name runs through the environment and the volumes:
    the name in CLUSTER_NAME is the name of the configuration map the
    configuration volume is read from, SERVICE_DNS is that name followed
    by "-cluster", POD_LABEL is "cluster=" followed by it, and every
    volume named "certificates" is read from the secret of that name
    followed by "-certs". *)
Theorem cluster_name_everywhere (cfg : node) (w : World.t) :
  ∃ name,
    EnvVar.Value <$> lookupEnv "CLUSTER_NAME" (getEnvVars' cfg) = Some name
    ∧ EnvVar.Value <$> lookupEnv "SERVICE_DNS" (getEnvVars' cfg)
      = Some (name +:+ "-cluster")
    ∧ EnvVar.Value <$> lookupEnv "POD_LABEL" (getEnvVars' cfg)
      = Some ("cluster=" +:+ name)
    ∧ VolumeSource.ConfigMap
        <$> (Volume.VolumeSource
               <$> volumesNamed "elasticsearch-config" (getVolumes cfg w).1)
      = [Some (ConfigMapVolumeSource.mk (LocalObjectReference.mk name))]
    ∧ Forall (λ v, VolumeSource.Secret (Volume.VolumeSource v)
                   = Some (SecretVolumeSource.mk (name +:+ "-certs")))
             (volumesNamed "certificates" (getVolumes cfg w).1).
Proof.
  exists (elasticsearchNode.ClusterName cfg).
  rewrite certificates_volumes, getVolumes_run. cbn [fst].
  repeat split.
  - cbn. by destruct (secureOf cfg).
  - destruct (secureOf cfg); repeat constructor.
Qed.

End Further.

(** ** The theorems at the reference instance *)

(** The default CPU limit is written "4000m" and prints as "4". *)
Example default_cpu_limit_text :
  @QString Ref.quantity (@ParseQuantity Ref.quantity defaultCPULimit).1 = "4".
Proof. reflexivity. Qed.

(** The library's answers the two lemmas below turn on: 2000 bytes in the
    binary format print as "2000", and "2000" reads back in the decimal
    format, which prints as "2k". *)
Example binary_2000_prints_2000 :
  resource.ParseQuantity "1.953125Ki"
  = (resource.mk 2000000000000 (Some BinarySI) "", None)
  ∧ resource.toString (resource.ParseQuantity "1.953125Ki").1 = "2000".
Proof. by vm_compute. Qed.

Example decimal_2000_prints_2k :
  resource.ParseQuantity "2000"
  = (resource.mk 2000000000000 (Some DecimalSI) "", None)
  ∧ resource.toString (resource.ParseQuantity "2000").1 = "2k".
Proof. by vm_compute. Qed.

(** C1 fails as stated: for a memory limit of 2000 bytes in the binary
    format the INSTANCE_RAM entry is "2000" and the text of the resolved
    memory limit is "2k". *)
Lemma instance_ram_text_differs :
  let c := (@getESContainer Ref.quantity Ref.keeping Ref.roleIsMaster
              Ref.roleIsData RefNodes.oddNode Ref.keepingWorld).1 in
  EnvVar.Value <$> lookupEnv "INSTANCE_RAM" (Container.Env c) = Some "2000"
  ∧ resource.toString
      <$> ResourceRequirements.Limits (Container.Resources c) !! "memory"
    = Some "2k"
  ∧ resource.toString
      <$> ResourceRequirements.Limits (Container.Resources c) !! "memory"
    ≠ EnvVar.Value <$> lookupEnv "INSTANCE_RAM" (Container.Env c).
Proof. vm_compute. by repeat split. Qed.

Lemma memory_limit_is_instance_ram_parsed_witness :
  let c := (@getESContainer Ref.quantity Ref.refusing Ref.roleIsMaster
              Ref.roleIsData Ref.secureNode Ref.refusingWorld).1 in
  EnvVar.Value <$> lookupEnv "INSTANCE_RAM" (Container.Env c) = Some "8Gi"
  ∧ ResourceRequirements.Limits (Container.Resources c) !! "memory"
    = Some (resource.ParseQuantity "8Gi").1
  ∧ resource.toString
      <$> ResourceRequirements.Limits (Container.Resources c) !! "memory"
    = Some "8Gi".
Proof.
  destruct (@memory_limit_is_instance_ram_parsed Ref.quantity Ref.refusing
              Ref.roleIsMaster Ref.roleIsData Ref.secureNode Ref.refusingWorld)
    as (_ & Henv & Hlimit & Htext).
  split; [by rewrite Henv|]. split; [exact Hlimit|].
  pose proof (proj2 Htext eq_refl) as Hsame. rewrite Henv in Hsame.
  exact Hsame.
Defined.

(** C2 fails as stated: the same memory limit is not zero, and the
    resolved memory limit is another quantity: the same 2000 bytes, but in
    the decimal format, printing as "2k" where the input prints "2000". *)
Lemma memory_limit_is_not_the_input :
  let input := @memoryLimitOf Ref.quantity Ref.keeping RefNodes.oddNode in
  let resolved :=
    ResourceRequirements.Limits
      (@getResourceRequirements Ref.quantity Ref.keeping RefNodes.oddNode
         Ref.keepingWorld).1 !! "memory" in
  resource.IsZero input = false
  ∧ resolved ≠ Some input
  ∧ resource.nanos <$> resolved = Some (resource.nanos input)
  ∧ resource.format input = Some BinarySI
  ∧ resource.format <$> resolved = Some (Some DecimalSI)
  ∧ resource.toString input = "2000"
  ∧ resource.toString <$> resolved = Some "2k".
Proof. vm_compute. by repeat split. Qed.

Lemma resources_default_when_zero_witness :
  let odd := (@getResourceRequirements Ref.quantity Ref.keeping
                RefNodes.oddNode Ref.keepingWorld).1 in
  let empty := (@getResourceRequirements Ref.quantity Ref.keeping
                  Ref.emptyNode Ref.keepingWorld).1 in
  ResourceRequirements.Limits odd !! "cpu"
  = Some (resource.ParseQuantity "2").1
  ∧ ResourceRequirements.Requests odd !! "cpu"
    = Some (resource.ParseQuantity "500m").1
  ∧ ResourceRequirements.Limits odd !! "memory"
    = Some (resource.ParseQuantity "2000").1
  ∧ ResourceRequirements.Requests odd !! "memory"
    = Some (resource.ParseQuantity "1Gi").1
  ∧ empty
    = {| ResourceRequirements.Limits :=
           <["cpu" := (resource.ParseQuantity "4000m").1]>
             (<["memory" := (resource.ParseQuantity "4Gi").1]> ∅);
         ResourceRequirements.Requests :=
           <["cpu" := (resource.ParseQuantity "100m").1]>
             (<["memory" := (resource.ParseQuantity "1Gi").1]> ∅) |}.
Proof.
  destruct (@resources_default_when_zero Ref.quantity Ref.keeping
              RefNodes.oddNode Ref.keepingWorld)
    as (Hcpu & _ & Hcpu' & _ & Hmem & _ & Hmem' & _ & _).
  destruct (@resources_default_when_zero Ref.quantity Ref.keeping
              Ref.emptyNode Ref.keepingWorld)
    as (_ & _ & _ & _ & _ & _ & _ & _ & Hempty).
  split; [exact (Hcpu eq_refl)|]. split; [exact (Hcpu' eq_refl)|].
  split; [exact (Hmem eq_refl)|]. split; [exact (Hmem' eq_refl)|].
  exact (Hempty (λ _, eq_refl) eq_refl).
Defined.

Lemma storage_precedence_witness :
  (@generatePersistentStorage Ref.quantity Ref.keeping Ref.crowdedNode
     Ref.keepingWorld).1
  = VolumeSource.mk (Some (HostPathVolumeSource.mk "/mnt/es" None))
      None None None None.
Proof.
  destruct (@storage_precedence Ref.quantity Ref.keeping Ref.crowdedNode
              Ref.keepingWorld) as (_ & Hhost & _).
  exact (Hhost _ eq_refl).
Defined.

Lemma claim_template_upsert_witness :
  (@generatePersistentStorage Ref.quantity Ref.refusing Ref.secureNode
     Ref.refusingWorld).1
  = VolumeSource.mk None None None
      (Some (PersistentVolumeClaimVolumeSource.mk "data-es-node-1" false)) None
  ∧ events_of (@generatePersistentStorage Ref.quantity Ref.refusing Ref.secureNode)
      Ref.refusingWorld
    = [Upserted "standard" "data-es-node-1" "logging";
       Logged ErrorLevel "Unable to create PersistentVolumeClaim: forbidden"].
Proof.
  destruct (@claim_template_upsert Ref.quantity Ref.refusing Ref.secureNode
              Ref.refusingWorld (PersistentVolumeClaim.mk "data" "standard")
              eq_refl eq_refl eq_refl) as (Hsource & _ & Hevents & _).
  split; [exact Hsource | exact Hevents].
Defined.

Lemma no_storage_variant_witness :
  (@getVolumes Ref.quantity Ref.keeping Ref.emptyNode Ref.keepingWorld).1
  = [ Volume.mk "elasticsearch-storage" VolumeSource.zero;
      Volume.mk "elasticsearch-config"
        (VolumeSource.mk None None None None
           (Some (ConfigMapVolumeSource.mk (LocalObjectReference.mk "logs")))) ]
  ∧ events_of (@getVolumes Ref.quantity Ref.keeping Ref.emptyNode) Ref.keepingWorld
    = [Logged InfoLevel "Unknown volume source"].
Proof.
  destruct (@no_storage_variant Ref.quantity Ref.keeping Ref.emptyNode
              Ref.keepingWorld eq_refl) as (_ & _ & _ & _ & Hvols & Hevents).
  split; [exact Hvols | exact Hevents].
Defined.

Lemma security_flag_frame_witness :
  let c1 := (@getESContainer Ref.quantity Ref.keeping Ref.roleIsMaster
               Ref.roleIsData Ref.emptyNode Ref.keepingWorld).1 in
  let c2 := (@getESContainer Ref.quantity Ref.keeping Ref.roleIsMaster
               Ref.roleIsData (elasticsearchNode.with_secure true Ref.emptyNode)
               Ref.keepingWorld).1 in
  Container.Env c2 = Container.Env c1
  ∧ Container.Resources c2 = Container.Resources c1
  ∧ length (Container.VolumeMounts c1) = 2%nat
  ∧ length (Container.VolumeMounts c2) = 3%nat.
Proof.
  destruct (@security_flag_frame Ref.quantity Ref.keeping Ref.roleIsMaster
              Ref.roleIsData Ref.emptyNode
              (elasticsearchNode.with_secure true Ref.emptyNode)
              Ref.keepingWorld)
    as (Henv & _ & _ & _ & _ & Hres & _).
  { repeat split. }
  split; [exact Henv | split; [exact Hres | split; reflexivity]].
Defined.

(** ** The spec's scenarios, run *)

(** Empty node spec, role "master", security off: the two mounts, no
    credentials mount, and "4Gi" of instance RAM. *)
Example scenario_empty_node :
  let c := (@getESContainer Ref.quantity Ref.keeping Ref.roleIsMaster
              Ref.roleIsData Ref.emptyNode Ref.keepingWorld).1 in
  VolumeMount.Name <$> Container.VolumeMounts c
  = ["elasticsearch-storage"; "elasticsearch-config"]
  ∧ EnvVar.Value <$> lookupEnv "INSTANCE_RAM" (Container.Env c) = Some "4Gi"
  ∧ EnvVar.Value <$> lookupEnv "IS_MASTER" (Container.Env c) = Some "true"
  ∧ Container.Image c = "docker.io/t0ffel/elasticsearch5".
Proof. vm_compute. repeat split. Qed.

(** A memory limit of "8Gi", security on: three mounts, the last at the
    certificates' path, and a volume from the secret "logs-certs". *)
Example scenario_secure_node :
  let c := (@getESContainer Ref.quantity Ref.keeping Ref.roleIsMaster
              Ref.roleIsData Ref.secureNode Ref.keepingWorld).1 in
  let vols := (@getVolumes Ref.quantity Ref.keeping Ref.secureNode
                 Ref.keepingWorld).1 in
  Container.VolumeMounts c
  = [ VolumeMount.mk "elasticsearch-storage" "/elasticsearch/persistent";
      VolumeMount.mk "elasticsearch-config" "/usr/share/java/elasticsearch/config";
      VolumeMount.mk "certificates" "/etc/elasticsearch/secret" ]
  ∧ Volume.VolumeSource <$> volumesNamed "certificates" vols
    = [ VolumeSource.mk None None (Some (SecretVolumeSource.mk "logs-certs"))
          None None ]
  ∧ EnvVar.Value <$> lookupEnv "INSTANCE_RAM" (Container.Env c) = Some "8Gi".
Proof. vm_compute. repeat split. Qed.

(** The keeping store holds the claim after the template was resolved. *)
Example scenario_claim_kept :
  World.store (@generatePersistentStorage Ref.quantity Ref.keeping
                 Ref.secureNode Ref.keepingWorld).2
  !! ("logging", "data-es-node-1") = Some "standard".
Proof. vm_compute. reflexivity. Qed.

(** ** The further properties at the reference instance *)

Lemma resources_ignore_the_role_witness :
  Container.Resources
    (@getESContainer Ref.quantity Ref.keeping Ref.roleIsMaster Ref.roleIsData
       Ref.emptyNode Ref.keepingWorld).1
  = Container.Resources
      (@getESContainer Ref.quantity Ref.keeping Ref.roleIsMaster Ref.roleIsData
         Ref.crowdedNode Ref.keepingWorld).1.
Proof.
  exact (@resources_ignore_the_role Ref.quantity Ref.keeping Ref.roleIsMaster
           Ref.roleIsData Ref.emptyNode Ref.crowdedNode Ref.keepingWorld
           Ref.keepingWorld eq_refl).
Defined.

Lemma resources_resolve_once_witness :
  let r := (@getResourceRequirements Ref.quantity Ref.keeping Ref.emptyNode
              Ref.keepingWorld).1 in
  (@getResourceRequirements Ref.quantity Ref.keeping
     (withResources r Ref.emptyNode) Ref.keepingWorld).1 = r.
Proof.
  exact (@resources_resolve_once Ref.quantity Ref.keeping
           Ref.emptyNode Ref.keepingWorld Ref.keepingWorld
           eq_refl eq_refl eq_refl eq_refl eq_refl).
Defined.

Lemma environment_frame_witness :
  @getEnvVars Ref.quantity Ref.keeping Ref.roleIsMaster Ref.roleIsData
    Ref.emptyNode
  = @getEnvVars Ref.quantity Ref.keeping Ref.roleIsMaster Ref.roleIsData
      RefNodes.movedNode.
Proof.
  exact (@environment_frame Ref.quantity Ref.keeping Ref.roleIsMaster
           Ref.roleIsData Ref.emptyNode RefNodes.movedNode
           eq_refl eq_refl eq_refl eq_refl).
Defined.

Lemma claims_differ_by_deploy_name_witness :
  (@generatePersistentStorage Ref.quantity Ref.keeping Ref.secureNode
     Ref.keepingWorld).1
  = (@generatePersistentStorage Ref.quantity Ref.keeping RefNodes.secondNode
       Ref.keepingWorld).1
  ↔ "es-node-1" = "es-node-2".
Proof.
  exact (@claims_differ_by_deploy_name Ref.quantity Ref.keeping Ref.secureNode
           RefNodes.secondNode Ref.keepingWorld Ref.keepingWorld
           (PersistentVolumeClaim.mk "data" "standard")
           (PersistentVolumeClaim.mk "data" "fast")
           eq_refl eq_refl eq_refl eq_refl eq_refl).
Defined.
